(** * Sales analytics pipeline: validation, aggregation, enrichment, report

    A shallow embedding of the Python sources

      - [utils/file_handler.py]   (read_sales_data, parse_transactions with
                                   its two sanitizers, validate_and_filter)
      - [utils/data_processor.py] (the aggregate views)
      - [utils/api_handler.py]    (create_product_mapping, enrich_sales_data,
                                   save_enriched_data)
      - [utils/reporting.py]      (generate_sales_report)
      - [main.py]                 (the filter options)

    followed by the properties of these functions that the specification
    states, and by further properties read off the code.

    Modelling conventions.

    - Text is a [string].  Characters outside ASCII are carried as their
      UTF-8 bytes, so the byte-order mark U+FEFF is the three bytes
      239 187 191.  Whitespace and digits are the ASCII ones of Python
      ([str.isspace] on code points 9-13, 28-32; [0-9]).
    - A transaction is a Python [dict] with string keys: a
      [gmap string value].  Dictionaries whose iteration order reaches the
      output (the grouping tables) are insertion-ordered association lists.
    - Python [int] is [Z].  Python [float] is a type [F] with the operations
      of the class [PyFloat]; no law is assumed about them unless a theorem
      lists it as a hypothesis.  [float(i)] on an [int] is taken to be total
      (the parser only builds quantities with [int(float(s))], which are in
      range).
    - [list.sort] and [sorted] are stable; they are modelled by a stable
      insertion sort over the comparison that the key induces.
    - A raised exception is [None]; [try/except Exception] is a [match]. *)

From Stdlib Require Import ZArith Lia.
From Stdlib Require Import Ascii.
From Stdlib Require String DecimalString DecimalPos OrderedTypeEx.
From stdpp Require Import base option list sorting gmap strings.

(** ** Python strings *)

Module PyStr.

Definition chr (n : nat) : ascii := Ascii.ascii_of_nat n.

Definition LF : string := String (chr 10) "".

(** U+FEFF in UTF-8. *)
Definition BOM : string :=
  String (chr 239) (String (chr 187) (String (chr 191) "")).

(** [c.isspace()] for an ASCII character. *)
Definition is_space (c : ascii) : bool :=
  let n := Ascii.nat_of_ascii c in
  ((9 <=? n) && (n <=? 13)) || ((28 <=? n) && (n <=? 32)).

Definition is_digit (c : ascii) : bool :=
  let n := Ascii.nat_of_ascii c in (48 <=? n) && (n <=? 57).

Definition digit_of (c : ascii) : option Z :=
  if is_digit c then Some (Z.of_nat (Ascii.nat_of_ascii c) - 48)%Z else None.

(** [s.lstrip()] *)
Fixpoint lstrip (s : string) : string :=
  match s with
  | String c r => if is_space c then lstrip r else s
  | EmptyString => ""
  end.

(** [s.rstrip()] *)
Fixpoint rstrip (s : string) : string :=
  match s with
  | String c r =>
      match rstrip r with
      | EmptyString => if is_space c then "" else String c ""
      | r' => String c r'
      end
  | EmptyString => ""
  end.

(** [s.strip()] *)
Definition strip (s : string) : string := rstrip (lstrip s).

Fixpoint mem_char (c : ascii) (chars : string) : bool :=
  match chars with
  | String d r => Ascii.eqb c d || mem_char c r
  | EmptyString => false
  end.

(** [s.rstrip(chars)]: drops the trailing characters that occur in
    [chars]; with [chars = ''] nothing is dropped. *)
Fixpoint rstrip_chars (chars s : string) : string :=
  match s with
  | String c r =>
      match rstrip_chars chars r with
      | EmptyString => if mem_char c chars then "" else String c ""
      | r' => String c r'
      end
  | EmptyString => ""
  end.

(** [s.startswith(p)] *)
Fixpoint startswith (p s : string) : bool :=
  match p, s with
  | EmptyString, _ => true
  | String a p', String b s' => Ascii.eqb a b && startswith p' s'
  | String _ _, EmptyString => false
  end.

(** [s.lstrip(BOM)]: the mark is one character of Python, three bytes
    here. *)
Fixpoint lstrip_bom_fuel (fuel : nat) (s : string) : string :=
  match fuel with
  | O => s
  | S fuel' =>
      match s with
      | String a (String b (String c r)) =>
          if Ascii.eqb a (chr 239) && Ascii.eqb b (chr 187) && Ascii.eqb c (chr 191)
          then lstrip_bom_fuel fuel' r else s
      | _ => s
      end
  end.

Definition lstrip_bom (s : string) : string :=
  lstrip_bom_fuel (String.length s) s.

(** [sep.join(parts)] *)
Fixpoint join (sep : string) (parts : list string) : string :=
  match parts with
  | [] => ""
  | [p] => p
  | p :: rest => p +:+ sep +:+ join sep rest
  end.

(** [s.split(c)] for a one-character separator. *)
Fixpoint split (sep : ascii) (s : string) : list string :=
  match s with
  | EmptyString => [""]
  | String c r =>
      if Ascii.eqb c sep then "" :: split sep r
      else match split sep r with
           | p :: ps => String c p :: ps
           | [] => [String c ""]
           end
  end.

(** [s.splitlines()] restricted to the LF terminator: a final LF ends the
    last line and opens no further one. *)
Definition splitlines (s : string) : list string :=
  match s with
  | EmptyString => []
  | _ => let ls := split (chr 10) s in
         match last ls with
         | Some EmptyString => removelast ls
         | _ => ls
         end
  end.

(** [s.replace(c, '')] for a one-character [c]. *)
Fixpoint remove_char (c : ascii) (s : string) : string :=
  match s with
  | String d r => if Ascii.eqb c d then remove_char c r else String d (remove_char c r)
  | EmptyString => ""
  end.

Definition lower_char (c : ascii) : ascii :=
  let n := Ascii.nat_of_ascii c in
  if (65 <=? n) && (n <=? 90) then chr (n + 32) else c.

(** [s.lower()] on ASCII letters. *)
Fixpoint lower (s : string) : string :=
  match s with
  | String c r => String (lower_char c) (lower r)
  | EmptyString => ""
  end.

(** [t in s] *)
Fixpoint contains (t s : string) : bool :=
  startswith t s ||
  match s with
  | String _ r => contains t r
  | EmptyString => false
  end.

(** [re.sub(r'\D+', '', s)]: what is left are the digits of [s], in
    order. *)
Fixpoint digits_only (s : string) : string :=
  match s with
  | String c r => if is_digit c then String c (digits_only r) else digits_only r
  | EmptyString => ""
  end.

(** [int(s)] for a string of digits. *)
Fixpoint int_of_digits (acc : Z) (s : string) : Z :=
  match s with
  | String c r => int_of_digits (acc * 10 + default 0%Z (digit_of c)) r
  | EmptyString => acc
  end.

(** The digits of [int(s)] after the sign: digits, single underscores
    allowed between two digits. *)
Fixpoint int_body (acc : Z) (after_digit : bool) (s : string) : option Z :=
  match s with
  | EmptyString => if after_digit then Some acc else None
  | String c r =>
      match digit_of c with
      | Some d => int_body (acc * 10 + d) true r
      | None => if Ascii.eqb c (chr 95) && after_digit then int_body acc false r else None
      end
  end.

(** [int(s)] for a string: [None] is [ValueError]. *)
Definition int_of_str (s : string) : option Z :=
  match strip s with
  | String c r =>
      if Ascii.eqb c (chr 45) then Z.opp <$> int_body 0 false r
      else if Ascii.eqb c (chr 43) then int_body 0 false r
      else int_body 0 false (String c r)
  | EmptyString => None
  end.

(** [str(i)] for an [int]. *)
Definition str_of_int (z : Z) : string :=
  DecimalString.NilZero.string_of_int (Z.to_int z).

Fixpoint repeat_char (c : ascii) (n : nat) : string :=
  match n with
  | O => ""
  | S n' => String c (repeat_char c n')
  end.

(** [len(s)]: the characters of [s], that is the bytes that do not
    continue a UTF-8 sequence. *)
Fixpoint len (s : string) : nat :=
  match s with
  | String c r =>
      let n := Ascii.nat_of_ascii c in
      (if (128 <=? n) && (n <? 192) then 0 else 1) + len r
  | EmptyString => 0
  end.

(** [format(s, '<w')] and [format(s, '>w')] *)
Definition ljust (w : nat) (s : string) : string :=
  s +:+ repeat_char (chr 32) (w - len s).

Definition rjust (w : nat) (s : string) : string :=
  repeat_char (chr 32) (w - len s) +:+ s.

(** [s.strip(':')] *)
Fixpoint lstrip_chars (chars s : string) : string :=
  match s with
  | String c r => if mem_char c chars then lstrip_chars chars r else s
  | EmptyString => ""
  end.

Definition strip_chars (chars s : string) : string :=
  rstrip_chars chars (lstrip_chars chars s).

(** [a < b] on strings: lexicographic on the characters. *)
Definition ltb (a b : string) : bool := String.ltb a b.

End PyStr.

(** ** Python floats and values *)

(** The operations on [float] that the program uses. *)
Class PyFloat (F : Type) := {
  fzero : F;                         (* 0.0 *)
  fadd : F → F → F;                  (* x + y *)
  fmul : F → F → F;                  (* x * y *)
  fdiv : F → F → F;                  (* x / y, y nonzero *)
  flt : F → F → bool;                (* x < y *)
  fle : F → F → bool;                (* x <= y *)
  feq : F → F → bool;                (* x == y *)
  float_of_int : Z → F;              (* float(i) *)
  int_of_float : F → option Z;       (* int(x); raises on nan and inf *)
  float_of_str : string → option F;  (* float(s); raises ValueError *)
  round2 : F → F;                    (* round(x, 2) *)
  float_str : F → string;            (* str(x) *)
  fmt_2f : F → string;               (* format(x, '.2f') *)
  fmt_comma_2f : F → string;         (* format(x, ',.2f') *)
}.

Inductive value (F : Type) : Type :=
  | VNone
  | VBool (b : bool)
  | VInt (z : Z)
  | VFloat (x : F)
  | VStr (s : string).

Arguments VNone {F}.
Arguments VBool {F} b.
Arguments VInt {F} z.
Arguments VFloat {F} x.
Arguments VStr {F} s.

(** A transaction: the [dict] the parser builds, with whatever keys it has. *)
Abbreviation record F := (gmap string (value F)).

Section Builtins.
Context {F : Type} {PF : PyFloat F}.

(** [str(v)] *)
Definition py_str (v : value F) : string :=
  match v with
  | VNone => "None"
  | VBool true => "True"
  | VBool false => "False"
  | VInt z => PyStr.str_of_int z
  | VFloat x => float_str x
  | VStr s => s
  end.

(** [int(v)]; [None] when it raises. *)
Definition py_int (v : value F) : option Z :=
  match v with
  | VNone => None
  | VBool b => Some (if b then 1 else 0)%Z
  | VInt z => Some z
  | VFloat x => int_of_float x
  | VStr s => PyStr.int_of_str s
  end.

(** [float(v)]; [None] when it raises. *)
Definition py_float (v : value F) : option F :=
  match v with
  | VNone => None
  | VBool b => Some (float_of_int (if b then 1 else 0)%Z)
  | VInt z => Some (float_of_int z)
  | VFloat x => Some x
  | VStr s => float_of_str s
  end.

(** [bool(v)] *)
Definition py_bool (v : value F) : bool :=
  match v with
  | VNone => false
  | VBool b => b
  | VInt z => negb (z =? 0)%Z
  | VFloat x => negb (feq x fzero)
  | VStr s => negb (String.eqb s "")
  end.

(** [t.get(k, d)] *)
Definition get (t : record F) (k : string) (d : value F) : value F :=
  default d (t !! k).

(** [str(t.get(k, '')).strip()] *)
Definition field (t : record F) (k : string) : string :=
  PyStr.strip (py_str (get t k (VStr ""))).

End Builtins.

(** ** Insertion-ordered dictionaries and the stable sort *)

Section Dict.
Context {V : Type}.

(** [d.get(k)] *)
Fixpoint dict_get (d : list (string * V)) (k : string) : option V :=
  match d with
  | [] => None
  | (k', v) :: r => if String.eqb k' k then Some v else dict_get r k
  end.

(** [d[k] = v]: an existing key keeps its place, a new one goes last. *)
Fixpoint dict_set (d : list (string * V)) (k : string) (v : V) : list (string * V) :=
  match d with
  | [] => [(k, v)]
  | (k', v') :: r => if String.eqb k' k then (k, v) :: r else (k', v') :: dict_set r k v
  end.

End Dict.

Section Sort.
Context {A : Type} (before : A → A → bool).

(** [x] passes every element that is strictly before it and stops at the
    first that is not. *)
Fixpoint insert_sorted (x : A) (l : list A) : list A :=
  match l with
  | [] => [x]
  | y :: r => if before y x then y :: insert_sorted x r else x :: y :: r
  end.

(** Stable: of two elements neither of which is before the other, the one
    that came first stays first. *)
Fixpoint stable_sort (l : list A) : list A :=
  match l with
  | [] => []
  | x :: r => insert_sorted x (stable_sort r)
  end.

(** [x] may stand in front of [y]: [y] is not strictly before [x]. *)
Definition not_after (x y : A) : Prop := before y x = false.

End Sort.

(** ** utils/file_handler.py *)

Definition EXPECTED_HEADERS : list string :=
  ["TransactionID"; "Date"; "ProductID"; "ProductName";
   "Quantity"; "UnitPrice"; "CustomerID"; "Region"].

Definition _looks_like_header (line : string) : bool :=
  let s := PyStr.remove_char " " (PyStr.strip line) in
  let expected := PyStr.join "|" EXPECTED_HEADERS in
  if String.eqb s expected then true
  else
    let lowered := PyStr.lower line in
    let hits :=
      length (List.filter (λ t, PyStr.contains (PyStr.lower t) lowered) EXPECTED_HEADERS) in
    4 <=? hits.

(** [while idx < len(raw_lines) and not raw_lines[idx].strip(): idx += 1],
    returning [raw_lines[idx:]]. *)
Fixpoint skip_blank (raw_lines : list string) : list string :=
  match raw_lines with
  | l :: r => if String.eqb (PyStr.strip l) "" then skip_blank r else raw_lines
  | [] => []
  end.

(** [read_sales_data] from the point where the file has been decoded:
    [raw_lines] is what [f.readlines()] returned, every line but possibly the
    last one ending in LF. *)
Definition read_sales_data (raw_lines : list string) : list string :=
  let raw_lines :=
    match raw_lines with
    | l0 :: r => PyStr.lstrip_bom l0 :: r
    | [] => []
    end in
  let rest := skip_blank raw_lines in
  let rest :=
    match rest with
    | l :: r => if _looks_like_header l then r else rest
    | [] => []
    end in
  List.filter (λ s, negb (String.eqb (PyStr.strip s) ""))
              (map (PyStr.rstrip_chars "") rest).

(** The six [invalid_count += 1; continue] exits of the validation loop, in
    the order in which the loop body reaches them. *)
Inductive rule : Set :=
  | MissingField
  | BlankField
  | BadNumber
  | BadTransactionID
  | BadProductID
  | BadCustomerID.

Record summary : Set := {
  total_input : nat;
  invalid : nat;
  filtered_by_region : nat;
  filtered_by_amount : nat;
  final_count : nat;
}.

Section FileHandler.
Context {F : Type} {PF : PyFloat F}.

(** One pass of the loop body on [t]: the exit taken, or the record that
    is appended to [valid_records]. *)
Definition check_record (t : record F) : rule + record F :=
  if negb (forallb (λ k, bool_decide (is_Some (t !! k))) EXPECTED_HEADERS)
  then inl MissingField
  else if existsb (λ k, String.eqb (field t k) "") EXPECTED_HEADERS
  then inl BlankField
  else
    match t !! "Quantity" ≫= py_int, t !! "UnitPrice" ≫= py_float with
    | Some qty, Some price =>
        if (qty <=? 0)%Z || fle price fzero then inl BadNumber
        else if negb (PyStr.startswith "T" (py_str (get t "TransactionID" VNone)))
        then inl BadTransactionID
        else if negb (PyStr.startswith "P" (py_str (get t "ProductID" VNone)))
        then inl BadProductID
        else if negb (PyStr.startswith "C" (py_str (get t "CustomerID" VNone)))
        then inl BadCustomerID
        else
          inr (<["_amount" := VFloat (fmul (float_of_int qty) price)]>
               (<["UnitPrice" := VFloat price]>
                (<["Quantity" := VInt qty]> t)))
    | _, _ => inl BadNumber
    end.

(** The validation loop: [(valid_records, invalid_count)] after the
    records of [transactions]. *)
Fixpoint validate_loop (transactions : list (record F))
    (valid_records : list (record F)) (invalid_count : nat)
    : list (record F) * nat :=
  match transactions with
  | [] => (valid_records, invalid_count)
  | t :: rest =>
      match check_record t with
      | inl _ => validate_loop rest valid_records (S invalid_count)
      | inr r => validate_loop rest (valid_records ++ [r]) invalid_count
      end
  end.

(** [r['_amount']] *)
Definition amount_of (r : record F) : F :=
  match r !! "_amount" with
  | Some (VFloat a) => a
  | _ => fzero
  end.

(** The console output (available regions, amount range, filter counts)
    is not part of the result and is left out. *)
Definition validate_and_filter (transactions : list (record F))
    (region : option string) (min_amount max_amount : option F)
    : list (record F) * nat * summary :=
  let total_input := length transactions in
  let '(valid_records, invalid_count) := validate_loop transactions [] 0 in
  let before_region := length valid_records in
  let valid_records :=
    match region with
    | Some (String c g) =>
        List.filter (λ r, String.eqb (field r "Region") (String c g)) valid_records
    | _ => valid_records
    end in
  let filtered_by_region := before_region - length valid_records in
  let before_amount := length valid_records in
  let valid_records :=
    match min_amount with
    | Some m => List.filter (λ r, fle m (amount_of r)) valid_records
    | None => valid_records
    end in
  let valid_records :=
    match max_amount with
    | Some m => List.filter (λ r, fle (amount_of r) m) valid_records
    | None => valid_records
    end in
  let filtered_by_amount := before_amount - length valid_records in
  let valid_records := map (delete "_amount") valid_records in
  (valid_records, invalid_count,
   {| total_input := total_input;
      invalid := invalid_count;
      filtered_by_region := filtered_by_region;
      filtered_by_amount := filtered_by_amount;
      final_count := length valid_records |}).

End FileHandler.

(** ** utils/data_processor.py *)

(** [s or 'Unknown'] *)
Definition or_unknown (s : string) : string :=
  if String.eqb s "" then "Unknown" else s.

Record region_stats (F : Type) : Type := {
  rs_total_sales : F;
  rs_transaction_count : nat;
  rs_percentage : F;
}.
Arguments rs_total_sales {F} _.
Arguments rs_transaction_count {F} _.
Arguments rs_percentage {F} _.

Record customer_stats (F : Type) : Type := {
  cs_total_spent : F;
  cs_purchase_count : nat;
  cs_avg_order_value : F;
  cs_products_bought : list string;
}.
Arguments cs_total_spent {F} _.
Arguments cs_purchase_count {F} _.
Arguments cs_avg_order_value {F} _.
Arguments cs_products_bought {F} _.

(** The value of [daily[date]] while the trend is accumulated. *)
Record day_acc (F : Type) : Type := {
  da_revenue : F;
  da_transaction_count : nat;
  da_custs : gset string;
}.
Arguments da_revenue {F} _.
Arguments da_transaction_count {F} _.
Arguments da_custs {F} _.

Record day_stats (F : Type) : Type := {
  ds_revenue : F;
  ds_transaction_count : nat;
  ds_unique_customers : nat;
}.
Arguments ds_revenue {F} _.
Arguments ds_transaction_count {F} _.
Arguments ds_unique_customers {F} _.

Section DataProcessor.
Context {F : Type} {PF : PyFloat F}.

Definition _amount (txn : record F) : F :=
  match py_int (get txn "Quantity" (VInt 0)),
        py_float (get txn "UnitPrice" (VFloat fzero)) with
  | Some qty, Some price => fmul (float_of_int qty) price
  | _, _ => fzero
  end.

Definition calculate_total_revenue (transactions : list (record F)) : F :=
  foldl (λ total t, fadd total (_amount t)) fzero transactions.

(** [str(t.get('Region','')).strip() or 'Unknown'] *)
Definition region_key (t : record F) : string := or_unknown (field t "Region").

(** The loop of [region_wise_sales] on the tables [(totals, counts)]. *)
Definition region_step (st : list (string * F) * list (string * nat)) (t : record F)
    : list (string * F) * list (string * nat) :=
  let r := region_key t in
  let a := _amount t in
  (dict_set st.1 r (fadd (default fzero (dict_get st.1 r)) a),
   dict_set st.2 r (default 0 (dict_get st.2 r) + 1)).

(** [a] goes before [b] when sorting on [key], largest first. *)
Definition by_key_desc {A : Type} (key : A → F) (a b : A) : bool :=
  flt (key b) (key a).

Definition region_wise_sales (transactions : list (record F))
    : list (string * region_stats F) :=
  let '(totals, counts) := foldl region_step ([], []) transactions in
  let grand := foldl fadd fzero (map snd totals) in
  let rows :=
    map (λ '(r, ts),
           let pct := if flt fzero grand
                      then fmul (fdiv ts grand) (float_of_int 100)
                      else fzero in
           (r, {| rs_total_sales := ts;
                  rs_transaction_count := default 0 (dict_get counts r);
                  rs_percentage := round2 pct |}))
        totals in
  stable_sort (by_key_desc (λ kv, rs_total_sales kv.2)) rows.

(** [str(t.get('ProductName','')).strip() or 'Unknown'] *)
Definition product_key (t : record F) : string := or_unknown (field t "ProductName").

(** [int(t.get('Quantity',0))], 0 when it raises. *)
Definition quantity_of (t : record F) : Z :=
  default 0%Z (py_int (get t "Quantity" (VInt 0))).

(** The loop shared by [top_selling_products] and
    [low_performing_products] on the tables [(qty, rev)]. *)
Definition product_step (st : list (string * Z) * list (string * F)) (t : record F)
    : list (string * Z) * list (string * F) :=
  let name := product_key t in
  let q := quantity_of t in
  let r := _amount t in
  (dict_set st.1 name (default 0%Z (dict_get st.1 name) + q)%Z,
   dict_set st.2 name (fadd (default fzero (dict_get st.2 name)) r)).

(** [(q1, r1) < (q2, r2)] on tuples: the first position where the two
    differ decides. *)
Definition pair_lt (a b : Z * F) : bool :=
  if negb (a.1 =? b.1)%Z then (a.1 <? b.1)%Z
  else if negb (feq a.2 b.2) then flt a.2 b.2
  else false.

(** [(q1, r1, n1) < (q2, r2, n2)] *)
Definition triple_lt (a b : Z * F * string) : bool :=
  if negb (a.1.1 =? b.1.1)%Z then (a.1.1 <? b.1.1)%Z
  else if negb (feq a.1.2 b.1.2) then flt a.1.2 b.1.2
  else if negb (String.eqb a.2 b.2) then PyStr.ltb a.2 b.2
  else false.

(** The rows [(name, qty[name], rev[name])] in the order of [qty.keys()]. *)
Definition product_rows (transactions : list (record F)) : list (string * Z * F) :=
  let '(qty, rev) := foldl product_step ([], []) transactions in
  map (λ '(name, q), (name, q, default fzero (dict_get rev name))) qty.

Definition top_selling_products (transactions : list (record F)) (n : Z)
    : list (string * Z * F) :=
  let rows := product_rows transactions in
  let rows := stable_sort (λ x y, pair_lt (y.1.2, y.2) (x.1.2, x.2)) rows in
  take (Z.to_nat (Z.max n 0)) rows.

(** The loop of [customer_analysis] on [(spent, counts, prods)]. *)
Definition customer_step
    (st : list (string * F) * list (string * nat) * list (string * gset string))
    (t : record F)
    : list (string * F) * list (string * nat) * list (string * gset string) :=
  let cid := or_unknown (field t "CustomerID") in
  let pname := product_key t in
  (dict_set st.1.1 cid (fadd (default fzero (dict_get st.1.1 cid)) (_amount t)),
   dict_set st.1.2 cid (default 0 (dict_get st.1.2 cid) + 1),
   dict_set st.2 cid ({[pname]} ∪ default ∅ (dict_get st.2 cid))).

Definition customer_analysis (transactions : list (record F))
    : list (string * customer_stats F) :=
  let '(spent, counts, prods) := foldl customer_step ([], [], []) transactions in
  let items :=
    map (λ '(cid, total),
           let cnt := default 0 (dict_get counts cid) in
           let aov := if 0 <? cnt
                      then round2 (fdiv total (float_of_int (Z.of_nat cnt)))
                      else fzero in
           (cid, {| cs_total_spent := total;
                    cs_purchase_count := cnt;
                    cs_avg_order_value := aov;
                    cs_products_bought :=
                      stable_sort PyStr.ltb
                        (elements (default ∅ (dict_get prods cid))) |}))
        spent in
  stable_sort (by_key_desc (λ kv, cs_total_spent kv.2)) items.

(** [str(t.get('Date','')).strip()] and [str(t.get('CustomerID','')).strip()] *)
Definition date_of (t : record F) : string := field t "Date".
Definition customer_of (t : record F) : string := field t "CustomerID".

(** The first loop of [daily_sales_trend] on the table [daily]. *)
Definition daily_step (daily : list (string * day_acc F)) (t : record F)
    : list (string * day_acc F) :=
  let date := date_of t in
  if String.eqb date "" then daily
  else
    let amt := _amount t in
    let cust := customer_of t in
    let cur := default {| da_revenue := fzero; da_transaction_count := 0; da_custs := ∅ |}
                       (dict_get daily date) in
    dict_set daily date
      {| da_revenue := fadd (da_revenue cur) amt;
         da_transaction_count := da_transaction_count cur + 1;
         da_custs := if String.eqb cust "" then da_custs cur
                     else {[cust]} ∪ da_custs cur |}.

Definition daily_sales_trend (transactions : list (record F))
    : list (string * day_stats F) :=
  let daily := foldl daily_step [] transactions in
  map (λ d,
         let acc := default {| da_revenue := fzero; da_transaction_count := 0;
                               da_custs := ∅ |} (dict_get daily d) in
         (d, {| ds_revenue := round2 (da_revenue acc);
                ds_transaction_count := da_transaction_count acc;
                ds_unique_customers := size (da_custs acc) |}))
      (stable_sort PyStr.ltb (map fst daily)).

(** [max(items, key=key)] after the first item [cur]: a later item replaces
    the current maximum only when its key is strictly greater. *)
Fixpoint max_from {A : Type} (key : A → F) (cur : A) (items : list A) : A :=
  match items with
  | [] => cur
  | x :: r => max_from key (if flt (key cur) (key x) then x else cur) r
  end.

Definition find_peak_sales_day (transactions : list (record F))
    : option (string * F * nat) :=
  let trend := daily_sales_trend transactions in
  match map fst trend with
  | [] => None
  | d0 :: ds =>
      let revenue_of dd := default fzero (ds_revenue <$> dict_get trend dd) in
      let peak_date := max_from revenue_of d0 ds in
      match dict_get trend peak_date with
      | Some rec => Some (peak_date, ds_revenue rec, ds_transaction_count rec)
      | None => None
      end
  end.

Definition low_performing_products (transactions : list (record F)) (threshold : Z)
    : list (string * Z * F) :=
  let rows := product_rows transactions in
  let rows := List.filter (λ x, (x.1.2 <? threshold)%Z) rows in
  stable_sort (λ x y, triple_lt (x.1.2, x.2, x.1.1) (y.1.2, y.2, y.1.1)) rows.

End DataProcessor.

(** ** utils/api_handler.py *)

(** The catalog mapping: product id to the [dict] of its metadata. *)
Abbreviation catalog F := (gmap Z (gmap string (value F))).

Section ApiHandler.
Context {F : Type} {PF : PyFloat F}.

Definition _extract_numeric_product_id (product_id : value F) : option Z :=
  let digits := PyStr.digits_only (py_str product_id) in
  if String.eqb digits "" then None else Some (PyStr.int_of_digits 0 digits).

Definition ENRICHED_HEADER : list string :=
  ["TransactionID"; "Date"; "ProductID"; "ProductName"; "Quantity"; "UnitPrice";
   "CustomerID"; "Region"; "API_Category"; "API_Brand"; "API_Rating"; "API_Match"].

(** ['' if t.get(k) is None else str(t.get(k))] *)
Definition str_or_empty (t : record F) (k : string) : string :=
  match get t k VNone with
  | VNone => ""
  | v => py_str v
  end.

(** The twelve cells of one row; [None] when [int(qv)] or [float(pv)]
    raises. *)
Definition enriched_row (t : record F) : option (list string) :=
  let qv := get t "Quantity" (VStr "") in
  let pv := get t "UnitPrice" (VStr "") in
  q_str ← (if String.eqb (PyStr.strip (py_str qv)) "" then Some ""
           else PyStr.str_of_int <$> py_int qv);
  p_str ← (if String.eqb (PyStr.strip (py_str pv)) "" then Some ""
           else float_str <$> py_float pv);
  Some [py_str (get t "TransactionID" (VStr ""));
        py_str (get t "Date" (VStr ""));
        py_str (get t "ProductID" (VStr ""));
        py_str (get t "ProductName" (VStr ""));
        q_str;
        p_str;
        py_str (get t "CustomerID" (VStr ""));
        py_str (get t "Region" (VStr ""));
        str_or_empty t "API_Category";
        str_or_empty t "API_Brand";
        str_or_empty t "API_Rating";
        py_str (VBool (py_bool (get t "API_Match" (VBool false))))].

(** The [f.write] calls of the row loop, after [written]: the text in the
    file when the loop stops, and whether it stopped normally. *)
Fixpoint write_rows (enriched_transactions : list (record F)) (written : string)
    : string * bool :=
  match enriched_transactions with
  | [] => (written, true)
  | t :: rest =>
      match enriched_row t with
      | Some row => write_rows rest (written +:+ (PyStr.join "|" row +:+ ""))
      | None => (written, false)
      end
  end.

(** The file system is a map from paths to contents; opening for writing
    always succeeds.  The [bool] is [false] when an exception leaves the
    function. *)
Definition save_enriched_data (fs : gmap string string)
    (enriched_transactions : list (record F)) (filename : string)
    : gmap string string * bool :=
  let '(text, ok) :=
    write_rows enriched_transactions (PyStr.join "|" ENRICHED_HEADER +:+ "") in
  (<[filename := text]> fs, ok).

(** The loop body of [enrich_sales_data]. *)
Definition enrich_record (product_mapping : catalog F) (t : record F) : record F :=
  let num_id := _extract_numeric_product_id (get t "ProductID" (VStr "")) in
  match num_id ≫= (λ n, product_mapping !! n) with
  | Some info =>
      <["API_Match" := VBool true]>
        (<["API_Rating" := get info "rating" VNone]>
           (<["API_Brand" := get info "brand" VNone]>
              (<["API_Category" := get info "category" VNone]> t)))
  | None =>
      <["API_Match" := VBool false]>
        (<["API_Rating" := VNone]>
           (<["API_Brand" := VNone]>
              (<["API_Category" := VNone]> t)))
  end.

Definition enrich_sales_data (fs : gmap string string)
    (transactions : list (record F)) (product_mapping : catalog F)
    : gmap string string * list (record F) :=
  let enriched := map (enrich_record product_mapping) transactions in
  let '(fs', _) := save_enriched_data fs enriched "data/enriched_sales_data.txt" in
  (fs', enriched).

End ApiHandler.

(** ** utils/reporting.py *)

(** What the report takes from its surroundings: [os.path.abspath] and the
    formatted [datetime.now()]. *)
Record os_env : Type := {
  os_abspath : string → string;
  os_now : string;
}.

Section Reporting.
Context {F : Type} {PF : PyFloat F}.

(** Formatting a [float] with [',.2f'] does not raise, so the [except]
    branch is never taken. *)
Definition _fmt_money (value : F) (currency_symbol : string) : string :=
  currency_symbol +:+ fmt_comma_2f value.

Definition _safe_int (v : value F) : Z := default 0%Z (py_int v).

Definition _safe_float (v : value F) : F := default fzero (py_float v).

(** [min(dates)] and [max(dates)] after the first item. *)
Fixpoint min_from (cur : string) (items : list string) : string :=
  match items with
  | [] => cur
  | x :: r => min_from (if PyStr.ltb x cur then x else cur) r
  end.

Fixpoint max_str_from (cur : string) (items : list string) : string :=
  match items with
  | [] => cur
  | x :: r => max_str_from (if PyStr.ltb cur x then x else cur) r
  end.

Definition dash_line : string := PyStr.repeat_char "-" 44.

Definition str_nat (n : nat) : string := PyStr.str_of_int (Z.of_nat n).

(** The list [lines] at the point where the report is written. *)
Definition report_lines (env : os_env) (txns etxns : list (record F))
    (currency_symbol : string) (low_threshold : Z) : list string :=
  let records_processed := length txns in
  let total_revenue := calculate_total_revenue txns in
  let total_transactions := length txns in
  let avg_order_value :=
    if 0 <? total_transactions
    then fdiv total_revenue (float_of_int (Z.of_nat total_transactions))
    else fzero in
  let dates := List.filter (λ d, negb (String.eqb d "")) (map date_of txns) in
  let date_min := match dates with d :: r => min_from d r | [] => "N/A" end in
  let date_max := match dates with d :: r => max_str_from d r | [] => "N/A" end in
  let region_stats := region_wise_sales txns in
  let top5_products := top_selling_products txns 5 in
  let top5_customers := take 5 (customer_analysis txns) in
  let trend := daily_sales_trend txns in
  let peak := find_peak_sales_day txns in
  let low_products := low_performing_products txns low_threshold in
  let avg_per_region :=
    map (λ '(r, stats),
           let cnt := _safe_int (VInt (Z.of_nat (rs_transaction_count stats))) in
           let tot := _safe_float (VFloat (rs_total_sales stats)) in
           (r, if negb (cnt =? 0)%Z then fdiv tot (float_of_int cnt) else fzero))
        region_stats in
  let api_total := length etxns in
  let api_success :=
    length (List.filter (λ e, py_bool (get e "API_Match" (VBool false))) etxns) in
  let not_enriched :=
    List.filter (λ label, negb (String.eqb label ""))
      (map (λ e, PyStr.strip_chars ":"
                   (py_str (get e "ProductID" (VStr "")) +:+ ":" +:+
                    py_str (get e "ProductName" (VStr ""))))
           (List.filter (λ e, negb (py_bool (get e "API_Match" (VBool false)))) etxns)) in
  let api_rate :=
    if 0 <? api_total
    then fmul (fdiv (float_of_int (Z.of_nat api_success))
                    (float_of_int (Z.of_nat api_total)))
              (float_of_int 100)
    else fzero in
  let sep := PyStr.repeat_char "=" 44 in
  [sep; "SALES ANALYTICS REPORT";
   "Generated: " +:+ os_now env;
   "Records Processed: " +:+ str_nat records_processed;
   sep;
   "OVERALL SUMMARY"; dash_line;
   "Total Revenue: " +:+ _fmt_money total_revenue currency_symbol;
   "Total Transactions: " +:+ str_nat total_transactions;
   "Average Order Value: " +:+ _fmt_money avg_order_value currency_symbol;
   "Date Range: " +:+ date_min +:+ " to " +:+ date_max;
   "REGION-WISE PERFORMANCE"; dash_line;
   PyStr.ljust 12 "Region" +:+ PyStr.rjust 15 "Sales" +:+ "  " +:+
     PyStr.rjust 12 "% of Total" +:+ "  " +:+ PyStr.rjust 13 "Transactions"]
  ++ map (λ '(region, stats),
            let sales := _safe_float (VFloat (rs_total_sales stats)) in
            let pct := _safe_float (VFloat (rs_percentage stats)) in
            let cnt := _safe_int (VInt (Z.of_nat (rs_transaction_count stats))) in
            PyStr.ljust 12 region +:+ PyStr.rjust 15 (_fmt_money sales currency_symbol)
              +:+ "  " +:+ PyStr.rjust 11 (fmt_2f pct) +:+ "%  " +:+
              PyStr.rjust 13 (PyStr.str_of_int cnt))
         region_stats
  ++ ["TOP 5 PRODUCTS"; dash_line;
      PyStr.rjust 4 "Rank" +:+ "  " +:+ PyStr.ljust 30 "Product Name" +:+
        PyStr.rjust 6 "Qty" +:+ "  " +:+ PyStr.rjust 15 "Revenue"]
  ++ imap (λ i '(name, qty, rev),
             PyStr.rjust 4 (str_nat (S i)) +:+ "  " +:+ PyStr.ljust 30 name +:+
               PyStr.rjust 6 (PyStr.str_of_int qty) +:+ "  " +:+
               PyStr.rjust 15 (_fmt_money (_safe_float (VFloat rev)) currency_symbol))
          top5_products
  ++ ["TOP 5 CUSTOMERS"; dash_line;
      PyStr.rjust 4 "Rank" +:+ "  " +:+ PyStr.ljust 12 "Customer ID" +:+
        PyStr.rjust 15 "Total Spent" +:+ "  " +:+ PyStr.rjust 12 "Order Count"]
  ++ imap (λ i '(cid, st),
             let total_spent := _safe_float (VFloat (cs_total_spent st)) in
             let orders := _safe_int (VInt (Z.of_nat (cs_purchase_count st))) in
             PyStr.rjust 4 (str_nat (S i)) +:+ "  " +:+ PyStr.ljust 12 cid +:+
               PyStr.rjust 15 (_fmt_money total_spent currency_symbol) +:+ "  " +:+
               PyStr.rjust 12 (PyStr.str_of_int orders))
          top5_customers
  ++ ["DAILY SALES TREND"; dash_line;
      PyStr.ljust 12 "Date" +:+ PyStr.rjust 15 "Revenue" +:+ "  " +:+
        PyStr.rjust 7 "Trans" +:+ "  " +:+ PyStr.rjust 14 "Unique Cust."]
  ++ map (λ '(d, rec),
            let rev := _safe_float (VFloat (ds_revenue rec)) in
            let tc := _safe_int (VInt (Z.of_nat (ds_transaction_count rec))) in
            let uc := _safe_int (VInt (Z.of_nat (ds_unique_customers rec))) in
            PyStr.ljust 12 d +:+ PyStr.rjust 15 (_fmt_money rev currency_symbol) +:+
              "  " +:+ PyStr.rjust 7 (PyStr.str_of_int tc) +:+ "  " +:+
              PyStr.rjust 14 (PyStr.str_of_int uc))
         trend
  ++ ["PRODUCT PERFORMANCE ANALYSIS"; dash_line;
      match peak with
      | Some (d, rev, tc) =>
          "Best Selling Day: " +:+ d +:+ "  (Revenue: " +:+
            _fmt_money (_safe_float (VFloat rev)) currency_symbol +:+
            ", Transactions: " +:+
            PyStr.str_of_int (_safe_int (VInt (Z.of_nat tc))) +:+ ")"
      | None => "Best Selling Day: N/A"
      end]
  ++ match low_products with
     | [] => ["Low Performing Products: None"]
     | _ =>
         ["Low Performing Products (< threshold)";
          PyStr.ljust 30 "Product" +:+ PyStr.rjust 6 "Qty" +:+ "  " +:+
            PyStr.rjust 15 "Revenue"]
         ++ map (λ '(name, qty, rev),
                   PyStr.ljust 30 name +:+
                     PyStr.rjust 6 (PyStr.str_of_int (_safe_int (VInt qty))) +:+ "  " +:+
                     PyStr.rjust 15 (_fmt_money (_safe_float (VFloat rev)) currency_symbol))
                low_products
     end
  ++ ["Average Transaction Value per Region";
      PyStr.ljust 12 "Region" +:+ PyStr.rjust 15 "Avg Value"]
  ++ map (λ '(r, avg), PyStr.ljust 12 r +:+ PyStr.rjust 15 (_fmt_money avg currency_symbol))
         avg_per_region
  ++ ["API ENRICHMENT SUMMARY"; dash_line;
      "Total products enriched: " +:+ str_nat api_success +:+ " of " +:+ str_nat api_total;
      "Success rate: " +:+ fmt_2f api_rate +:+ "%"]
  ++ match not_enriched with
     | [] => ["All products enriched successfully (or enrichment not attempted)."]
     | _ =>
         "Products not enriched:" ::
         map (λ label, " - " +:+ label)
             (stable_sort PyStr.ltb (elements (list_to_set not_enriched : gset string)))
     end.

(** [report_text = chr(10).join(lines) + chr(10)] *)
Definition report_text (env : os_env) (txns etxns : list (record F))
    (currency_symbol : string) (low_threshold : Z) : string :=
  PyStr.join PyStr.LF (report_lines env txns etxns currency_symbol low_threshold)
    +:+ PyStr.LF.

(** The new file system and the returned value. *)
Definition generate_sales_report (env : os_env) (fs : gmap string string)
    (transactions : list (record F))
    (enriched_transactions : option (list (record F)))
    (output_file currency_symbol : string) (low_threshold : Z)
    : gmap string string * string :=
  let txns := transactions in
  let etxns := default [] enriched_transactions in
  let text := report_text env txns etxns currency_symbol low_threshold in
  (<[output_file := text]> fs, os_abspath env output_file).

End Reporting.

(** ** An exact instance: amounts in hundredths

    Decimal amounts with two fractional digits, held as their number of
    hundredths.  Addition, comparison, [float(i)], [int(x)], [round(x, 2)],
    [str] and the two formats are exact; a product or quotient is cut to two
    fractional digits.  The examples below run the definitions on it. *)

Module Cents.

Definition two_digits (n : Z) : string :=
  (if (n <? 10)%Z then "0" else "") +:+ PyStr.str_of_int n.

Definition three_digits (n : Z) : string :=
  (if (n <? 10)%Z then "00" else if (n <? 100)%Z then "0" else "")
    +:+ PyStr.str_of_int n.

(** The integral part with a comma between groups of three digits. *)
Fixpoint grouped (fuel : nat) (n : Z) : string :=
  match fuel with
  | O => PyStr.str_of_int n
  | S fuel' =>
      if (n <? 1000)%Z then PyStr.str_of_int n
      else grouped fuel' (n / 1000) +:+ "," +:+ three_digits (n mod 1000)
  end.

Definition sign (x : Z) : string := if (x <? 0)%Z then "-" else "".

Definition to_2f (x : Z) : string :=
  sign x +:+ PyStr.str_of_int (Z.abs x / 100) +:+ "." +:+ two_digits (Z.abs x mod 100).

Definition to_comma_2f (x : Z) : string :=
  sign x +:+ grouped (Z.to_nat (Z.log2 (Z.abs x))) (Z.abs x / 100)
    +:+ "." +:+ two_digits (Z.abs x mod 100).

Definition to_str (x : Z) : string :=
  let frac := (Z.abs x mod 100)%Z in
  sign x +:+ PyStr.str_of_int (Z.abs x / 100) +:+ "." +:+
    (if (frac mod 10 =? 0)%Z then PyStr.str_of_int (frac / 10) else two_digits frac).

Definition all_digits (s : string) : bool :=
  String.eqb (PyStr.digits_only s) s.

(** [float(s)] for an optional sign, digits and at most two fractional
    digits; anything else is outside the instance. *)
Definition of_str (s : string) : option Z :=
  let s := PyStr.strip s in
  let '(neg, body) :=
    match s with
    | String c r =>
        if Ascii.eqb c (PyStr.chr 45) then (true, r)
        else if Ascii.eqb c (PyStr.chr 43) then (false, r)
        else (false, s)
    | EmptyString => (false, s)
    end in
  let magnitude :=
    match PyStr.split (PyStr.chr 46) body with
    | [i] =>
        if all_digits i && negb (String.eqb i "")
        then Some (100 * PyStr.int_of_digits 0 i)%Z else None
    | [i; f] =>
        if all_digits i && all_digits f && negb (String.eqb (i +:+ f) "")
           && (String.length f <=? 2)
        then Some (100 * PyStr.int_of_digits 0 i
                   + PyStr.int_of_digits 0 (f +:+ PyStr.repeat_char "0" (2 - String.length f)))%Z
        else None
    | _ => None
    end in
  (λ m, if neg : bool then (- m)%Z else m) <$> magnitude.

#[global] Instance cents : PyFloat Z := {|
  fzero := 0%Z;
  fadd := Z.add;
  fmul := λ x y, Z.quot (x * y) 100;
  fdiv := λ x y, Z.quot (x * 100) y;
  flt := Z.ltb;
  fle := Z.leb;
  feq := Z.eqb;
  float_of_int := λ i, (100 * i)%Z;
  int_of_float := λ x, Some (Z.quot x 100);
  float_of_str := of_str;
  round2 := λ x, x;
  float_str := to_str;
  fmt_2f := to_2f;
  fmt_comma_2f := to_comma_2f;
|}.

End Cents.

(** ** Notions used to state the properties *)

(** The order of the exits of the validation loop. *)
Definition rule_rank (r : rule) : nat :=
  match r with
  | MissingField => 1
  | BlankField => 2
  | BadNumber => 3
  | BadTransactionID => 4
  | BadProductID => 5
  | BadCustomerID => 6
  end.

(** [add_key ks k]: the keys of a dictionary after [d[k] = v]. *)
Definition add_key (ks : list string) (k : string) : list string :=
  if bool_decide (k ∈ ks) then ks else ks ++ [k].

(** The distinct keys of [ks], in order of first occurrence. *)
Definition first_seen (ks : list string) : list string := foldl add_key [] ks.

Section GroupStep.
Context {T V : Type} (key : T → string) (upd : V → T → V) (z : V).

(** [d[key t] = upd (d.get(key t, z)) t], the step of every grouping loop. *)
Definition group_step (d : list (string * V)) (t : T) : list (string * V) :=
  dict_set d (key t) (upd (default z (dict_get d (key t))) t).

(** The members of the group [k], in input order. *)
Definition group (k : string) (ts : list T) : list T :=
  List.filter (λ t, String.eqb (key t) k) ts.

End GroupStep.


Definition asymmetric {X : Type} (lt : X → X → bool) : Prop :=
  ∀ a b, lt a b = true → lt b a = false.

Definition cotransitive {X : Type} (lt : X → X → bool) : Prop :=
  ∀ a b c, lt a c = true → lt a b = true ∨ lt b c = true.

(** [ltb] is a strict weak order and [eqb] holds between the items that it
    does not separate. *)
Definition weak_order {A : Type} (eqb ltb : A → A → bool) : Prop :=
  asymmetric ltb ∧ cotransitive ltb
  ∧ ∀ a b, eqb a b = true ↔ ltb a b = false ∧ ltb b a = false.

(** Laws of exact addition; floats obey them up to rounding. *)
Record exact_sum {F : Type} (PF : PyFloat F) : Prop := {
  fadd_assoc : ∀ a b c : F, fadd a (fadd b c) = fadd (fadd a b) c;
  fadd_comm : ∀ a b : F, fadd a b = fadd b a;
  fadd_zero : ∀ a : F, fadd fzero a = a;
}.

(** The comparisons of floats that are not nan: [<] is a strict weak order
    and [==] holds between the values that [<] does not separate. *)
Record ordered_floats {F : Type} (PF : PyFloat F) : Prop := {
  flt_asym : ∀ a b : F, flt a b = true → flt b a = false;
  flt_cotrans : ∀ a b c : F, flt a c = true → flt a b = true ∨ flt b c = true;
  feq_spec : ∀ a b : F, feq a b = true ↔ flt a b = false ∧ flt b a = false;
}.

Section Notions.
Context {F : Type} {PF : PyFloat F}.

(** Python's [sum] of floats: left to right, from zero. *)
Definition fsum (l : list F) : F := foldl fadd fzero l.

(** The four rejection rules of the validator, the fourth in its three
    parts, each stated on its own. *)
Definition rule_fails (r : rule) (t : record F) : Prop :=
  match r with
  | MissingField => ∃ k, k ∈ EXPECTED_HEADERS ∧ t !! k = None
  | BlankField => ∃ k, k ∈ EXPECTED_HEADERS ∧ field t k = ""
  | BadNumber =>
      ¬ ∃ qty price,
          t !! "Quantity" ≫= py_int = Some qty ∧
          t !! "UnitPrice" ≫= py_float = Some price ∧
          (0 < qty)%Z ∧ fle price fzero = false
  | BadTransactionID =>
      PyStr.startswith "T" (py_str (get t "TransactionID" VNone)) = false
  | BadProductID =>
      PyStr.startswith "P" (py_str (get t "ProductID" VNone)) = false
  | BadCustomerID =>
      PyStr.startswith "C" (py_str (get t "CustomerID" VNone)) = false
  end.

Definition is_rejected (t : record F) : bool :=
  match check_record t with
  | inl _ => true
  | inr _ => false
  end.

(** The records that the loop keeps, as it stores them. *)
Definition accepted (ts : list (record F)) : list (record F) :=
  omap (λ t, match check_record t with inr r => Some r | inl _ => None end) ts.


(** The totals of the product group [name]. *)
Definition group_quantity (ts : list (record F)) (name : string) : Z :=
  foldl Z.add 0%Z (map quantity_of (group product_key name ts)).

Definition group_revenue (ts : list (record F)) (name : string) : F :=
  fsum (map _amount (group product_key name ts)).



(** The records that carry a date. *)
Definition dated (ts : list (record F)) : list (record F) :=
  List.filter (λ t, negb (String.eqb (date_of t) "")) ts.

(** What [daily_step] does to the entry of the day of [t]. *)
Definition day_zero : day_acc F :=
  {| da_revenue := fzero; da_transaction_count := 0; da_custs := ∅ |}.

Definition day_upd (cur : day_acc F) (t : record F) : day_acc F :=
  {| da_revenue := fadd (da_revenue cur) (_amount t);
     da_transaction_count := da_transaction_count cur + 1;
     da_custs := if String.eqb (customer_of t) "" then da_custs cur
                 else {[customer_of t]} ∪ da_custs cur |}.

(** The customers counted for the day [d]: the non-blank ids among the
    records of that day. *)
Definition day_customers (ts : list (record F)) (d : string) : gset string :=
  list_to_set (List.filter (λ c, negb (String.eqb c "")) (map customer_of (group date_of d ts))).

(** The entry of the day [d]: its rounded revenue, the number of its
    records and the number of its customers. *)
Definition day_stats_of (ts : list (record F)) (d : string) : day_stats F :=
  {| ds_revenue := round2 (fsum (map _amount (group date_of d ts)));
     ds_transaction_count := length (group date_of d ts);
     ds_unique_customers := size (day_customers ts d) |}.


(** The [API_Match] cell of the [i]-th data row when the side-file is
    read back line by line and split on the pipe: column 12 of line
    [i + 1], the header being line 0. *)
Definition match_cell_read_back (text : string) (i : nat) : option string :=
  PyStr.splitlines text !! S i ≫= (λ line, PyStr.split "|" line !! 11).

(** The [API_Match] of an enriched record as the writer prints it. *)
Definition match_flag (t : record F) : string :=
  py_str (VBool (py_bool (get t "API_Match" (VBool false)))).

End Notions.

(** ** Sample data *)

Module Sample.
Import Cents.

Definition txn (tid date pid name : string) (qty price : Z) (cid region : string)
    : record Z :=
  list_to_map
    [("TransactionID", VStr tid); ("Date", VStr date); ("ProductID", VStr pid);
     ("ProductName", VStr name); ("Quantity", VInt qty); ("UnitPrice", VFloat price);
     ("CustomerID", VStr cid); ("Region", VStr region)].

(** [T1|2024-01-01|P100|Widget|2|10.00|C1|North] *)
Definition t1 : record Z := txn "T1" "2024-01-01" "P100" "Widget" 2 1000 "C1" "North".
Definition t2 : record Z := txn "T2" "2024-01-02" "P101" "Gadget" 5 250 "C2" "South".
Definition t3 : record Z := txn "T3" "2024-01-02" "P100" "Widget" 1 1000 "C1" "North".

Definition zero_quantity : record Z :=
  txn "T5" "2024-01-03" "P100" "Widget" 0 1000 "C1" "North".
Definition foreign_customer : record Z :=
  txn "T6" "2024-01-03" "P100" "Widget" 1 1000 "X1" "North".

Definition toys : gmap string (value Z) :=
  list_to_map [("title", VStr "Robot"); ("category", VStr "Toys");
               ("brand", VStr "Acme"); ("rating", VFloat 450%Z)].

Definition mapping : catalog Z := {[ 100%Z := toys ]}.

Definition env : os_env :=
  {| os_abspath := λ p, "/srv/sales/" +:+ p; os_now := "2024-01-05 09:00:00" |}.

Definition ledger_line : string := "T1|2024-01-01|P100|Widget|2|10.00|C1|North" +:+ PyStr.LF.

End Sample.

(** Closes "every rule of a lower rank passes" once the passing of each is
    among the hypotheses. *)
Ltac earlier_rules_pass :=
  let r' := fresh "r" in
  let Hlt := fresh "Hlt" in
  intros r'; destruct r'; cbn [rule_fails rule_rank]; intros Hlt;
  try lia; try done; try congruence.

(** Finds a line in the list of the lines of the report. *)
Ltac find_line :=
  repeat first [ apply list_elem_of_here | apply list_elem_of_further
               | (apply elem_of_app; right) ].

(** Steps a list of titles along a list of lines. *)
Ltac next_title :=
  first [ apply sublist_nil_l | apply sublist_skip | apply sublist_cons
        | apply sublist_inserts_l ].


(** ** The parser and the catalog mapping

    [parse_transactions], with its two sanitizers, from
    [utils/file_handler.py], and [create_product_mapping] from
    [utils/api_handler.py]. *)

Module PyReplace.

(** What is left of [s] after the prefix [p], when [s] starts with it. *)
Fixpoint drop_prefix (p s : string) : option string :=
  match p, s with
  | EmptyString, _ => Some s
  | String a p', String b s' => if Ascii.eqb a b then drop_prefix p' s' else None
  | String _ _, EmptyString => None
  end.

(** [s.replace(old, new)] for a non-empty [old]: the occurrences are taken
    from the left and do not overlap.  Every step takes at least one
    character of [s], so [fuel] above the length of [s] is never used up. *)
Fixpoint replace_fuel (fuel : nat) (old new s : string) : string :=
  match fuel with
  | O => s
  | S fuel' =>
      match drop_prefix old s with
      | Some rest => new +:+ replace_fuel fuel' old new rest
      | None =>
          match s with
          | String c r => String c (replace_fuel fuel' old new r)
          | EmptyString => ""
          end
      end
  end.

Definition replace (old new s : string) : string :=
  replace_fuel (S (String.length s)) old new s.

(** [while old in s: s = s.replace(old, new)], for [new] shorter than [old]:
    every turn shortens [s], so [fuel] of the length of [s] is never used
    up. *)
Fixpoint replace_while (fuel : nat) (old new s : string) : string :=
  match fuel with
  | O => s
  | S fuel' =>
      if PyStr.contains old s then replace_while fuel' old new (replace old new s) else s
  end.

End PyReplace.

(** [',', '$', '€', '£', ' '], the euro and pound signs in UTF-8. *)
Definition NUMERIC_STRIPPERS : list string :=
  [","; "$";
   String (PyStr.chr 226) (String (PyStr.chr 130) (String (PyStr.chr 172) ""));
   String (PyStr.chr 194) (String (PyStr.chr 163) "");
   " "].

(** The argument is a [str] or [None]. *)
Definition _sanitize_number (value : option string) : string :=
  match value with
  | None => ""
  | Some value =>
      foldl (λ v ch, PyReplace.replace ch "" v) (PyStr.strip value) NUMERIC_STRIPPERS
  end.

Definition _clean_product_name (name : option string) : string :=
  match name with
  | None => ""
  | Some name =>
      let cleaned := PyStr.strip (PyReplace.replace "," " " name) in
      PyReplace.replace_while (String.length cleaned) "  " " " cleaned
  end.

(** [s or '0'] *)
Definition or_zero (s : string) : string :=
  if String.eqb s "" then "0" else s.

Section Parser.
Context {F : Type} {PF : PyFloat F}.

(** The loop body of [parse_transactions]: the row appended for [line], or
    [None] when the loop goes on to the next line. *)
Definition parse_line (line : string) : option (record F) :=
  if String.eqb line "" || negb (PyStr.contains "|" line) then None
  else
    let parts := map PyStr.strip (PyStr.split "|" line) in
    match parts with
    | [_; _; _; product_name; quantity; unit_price; _; _] =>
        let row : record F := list_to_map (zip EXPECTED_HEADERS (VStr <$> parts)) in
        let row := <["ProductName" := VStr (_clean_product_name (Some product_name))]> row in
        let q_raw := or_zero (_sanitize_number (Some quantity)) in
        let p_raw := or_zero (_sanitize_number (Some unit_price)) in
        match float_of_str q_raw ≫= int_of_float, float_of_str p_raw with
        | Some qty, Some price =>
            Some (<["UnitPrice" := VFloat price]> (<["Quantity" := VInt qty]> row))
        | _, _ => None
        end
    | _ => None
    end.

Definition parse_transactions (raw_lines : list string) : list (record F) :=
  omap parse_line raw_lines.

(** [isinstance(pid, int)]: an [int], or a [bool], which Python counts as
    the [int] 1 or 0, also as a key. *)
Definition int_key (pid : value F) : option Z :=
  match pid with
  | VInt z => Some z
  | VBool b => Some (if b then 1 else 0)%Z
  | _ => None
  end.

(** The entry stored for the product [p]. *)
Definition product_info (p : record F) : gmap string (value F) :=
  list_to_map
    [("title", get p "title" VNone); ("category", get p "category" VNone);
     ("brand", get p "brand" VNone); ("rating", get p "rating" VNone)].

Definition create_product_mapping (api_products : list (record F)) : catalog F :=
  foldl (λ mapping p,
           match int_key (get p "id" VNone) with
           | Some pid => <[pid := product_info p]> mapping
           | None => mapping
           end)
        ∅ api_products.

(** The product of the catalog that holds the id [n] last. *)
Definition last_with_id (api_products : list (record F)) (n : Z) : option (record F) :=
  last (List.filter (λ p, bool_decide (int_key (get p "id" VNone) = Some n)) api_products).

End Parser.

(** ** main.py: the filter options shown before validation

    The same regions and the same range are printed by
    [validate_and_filter] before its loop. *)

Section FilterOptions.
Context {F : Type} {PF : PyFloat F}.





End FilterOptions.

(** ** Notions for the further properties *)

Section Notions2.
Context {F : Type} {PF : PyFloat F}.

(** The sum that [region_wise_sales] takes the percentages of: the totals
    of the regions, in order of first occurrence. *)
Definition region_grand (ts : list (record F)) : F :=
  fsum (map (λ r, fsum (map _amount (group region_key r ts)))
            (first_seen (map region_key ts))).

(** The entry of the region [r]. *)
Definition region_entry (ts : list (record F)) (r : string) : region_stats F :=
  let total := fsum (map _amount (group region_key r ts)) in
  {| rs_total_sales := total;
     rs_transaction_count := length (group region_key r ts);
     rs_percentage :=
       round2 (if flt fzero (region_grand ts)
               then fmul (fdiv total (region_grand ts)) (float_of_int 100)
               else fzero) |}.

(** [str(t.get('CustomerID','')).strip() or 'Unknown'] *)
Definition customer_key (t : record F) : string := or_unknown (field t "CustomerID").

(** The entry of the customer [cid]. *)
Definition customer_entry (ts : list (record F)) (cid : string) : customer_stats F :=
  let total := fsum (map _amount (group customer_key cid ts)) in
  let cnt := length (group customer_key cid ts) in
  {| cs_total_spent := total;
     cs_purchase_count := cnt;
     cs_avg_order_value :=
       if 0 <? cnt then round2 (fdiv total (float_of_int (Z.of_nat cnt))) else fzero;
     cs_products_bought :=
       stable_sort PyStr.ltb
         (elements (list_to_set (map product_key (group customer_key cid ts))
                    : gset string)) |}.

(** The labels [ProductID:ProductName] that the report collects from the
    enriched records without a match, the empty ones left out. *)
Definition not_enriched_labels (etxns : list (record F)) : list string :=
  List.filter (λ label, negb (String.eqb label ""))
    (map (λ e, PyStr.strip_chars ":"
                 (py_str (get e "ProductID" (VStr "")) +:+ ":" +:+
                  py_str (get e "ProductName" (VStr ""))))
         (List.filter (λ e, negb (py_bool (get e "API_Match" (VBool false)))) etxns)).

(** The titles of the eight blocks of the report. *)
Definition REPORT_TITLES : list string :=
  ["SALES ANALYTICS REPORT"; "OVERALL SUMMARY"; "REGION-WISE PERFORMANCE";
   "TOP 5 PRODUCTS"; "TOP 5 CUSTOMERS"; "DAILY SALES TREND";
   "PRODUCT PERFORMANCE ANALYSIS"; "API ENRICHMENT SUMMARY"].

End Notions2.

(** * Properties *)

(** ** The stable sort *)

Section SortFacts.
Context {A : Type} (before : A → A → bool).

Lemma insert_sorted_perm (x : A) (l : list A) :
  insert_sorted before x l ≡ₚ x :: l.
Proof.
  induction l as [|y r IH]; simpl; [done|].
  destruct (before y x); [|done].
  rewrite IH. apply Permutation_swap.
Qed.

Lemma stable_sort_perm (l : list A) : stable_sort before l ≡ₚ l.
Proof.
  induction l as [|x r IH]; simpl; [done|].
  rewrite insert_sorted_perm. by rewrite IH.
Qed.

Lemma stable_sort_elem (l : list A) (x : A) : x ∈ stable_sort before l ↔ x ∈ l.
Proof. by rewrite stable_sort_perm. Qed.

Lemma stable_sort_length (l : list A) : length (stable_sort before l) = length l.
Proof. by rewrite stable_sort_perm. Qed.

Hypothesis before_asym : ∀ a b, before a b = true → before b a = false.
Hypothesis not_after_trans : ∀ a b c, not_after before a b → not_after before b c → not_after before a c.

Lemma insert_sorted_sorted (x : A) (l : list A) :
  StronglySorted (not_after before) l → StronglySorted (not_after before) (insert_sorted before x l).
Proof.
  induction 1 as [|y r Hr IH Hy]; simpl.
  - repeat constructor.
  - destruct (before y x) eqn:Hyx.
    + constructor; [done|].
      rewrite insert_sorted_perm. constructor; [|done].
      by apply before_asym.
    + constructor; [by constructor|].
      constructor; [done|].
      eapply Forall_impl; [exact Hy|]. intros z Hz.
      by apply not_after_trans with y.
Qed.

Lemma stable_sort_sorted (l : list A) : StronglySorted (not_after before) (stable_sort before l).
Proof.
  induction l as [|x r IH]; simpl; [constructor|].
  by apply insert_sorted_sorted.
Qed.

End SortFacts.

(** ** Insertion-ordered dictionaries *)

Section DictFacts.
Context {V : Type}.
Implicit Types (d : list (string * V)) (k : string) (v : V).

Lemma dict_get_set_eq d k v : dict_get (dict_set d k v) k = Some v.
Proof.
  induction d as [|[k' v'] r IH]; simpl.
  - by rewrite String.eqb_refl.
  - destruct (String.eqb k' k) eqn:E; simpl.
    + by rewrite String.eqb_refl.
    + by rewrite E.
Qed.

Lemma dict_get_set_ne d k k' v :
  k ≠ k' → dict_get (dict_set d k v) k' = dict_get d k'.
Proof.
  intros Hne. induction d as [|[k0 v0] r IH]; simpl.
  - by apply String.eqb_neq in Hne as ->.
  - destruct (String.eqb k0 k) eqn:E; simpl.
    + apply String.eqb_eq in E as ->.
      by apply String.eqb_neq in Hne as ->.
    + by rewrite IH.
Qed.

Lemma dict_get_None d k : dict_get d k = None ↔ k ∉ map fst d.
Proof.
  induction d as [|[k0 v0] r IH]; simpl.
  - split; [intros _; apply not_elem_of_nil|done].
  - rewrite not_elem_of_cons. destruct (String.eqb_spec k0 k) as [->|Hne].
    + split; [done|]. by intros [? _].
    + rewrite IH. naive_solver.
Qed.

Lemma dict_get_Some_elem d k v : dict_get d k = Some v → (k, v) ∈ d.
Proof.
  induction d as [|[k0 v0] r IH]; simpl; [done|].
  destruct (String.eqb_spec k0 k) as [->|Hne].
  - intros [= <-]. apply elem_of_cons; by left.
  - intros H. apply elem_of_cons; right. by apply IH.
Qed.

Lemma dict_get_of_elem d k v : NoDup (map fst d) → (k, v) ∈ d → dict_get d k = Some v.
Proof.
  induction d as [|[k0 v0] r IH]; simpl.
  - intros _ H. by apply elem_of_nil in H.
  - rewrite NoDup_cons. intros [Hk0 Hr] [[= -> ->]|H]%elem_of_cons.
    + by rewrite String.eqb_refl.
    + destruct (String.eqb_spec k0 k) as [->|Hne]; [|by apply IH].
      exfalso. apply Hk0. apply list_elem_of_fmap. by exists (k, v).
Qed.

Lemma dict_set_keys d k v : map fst (dict_set d k v) = add_key (map fst d) k.
Proof.
  induction d as [|[k0 v0] r IH]; simpl; [done|].
  destruct (String.eqb_spec k0 k) as [->|Hne]; simpl.
  - unfold add_key. rewrite bool_decide_eq_true_2; [done|]. apply elem_of_cons; by left.
  - rewrite IH. unfold add_key.
    destruct (decide (k ∈ map fst r)) as [Hk|Hk].
    + rewrite !bool_decide_eq_true_2; [done| |done]. apply elem_of_cons; by right.
    + rewrite !bool_decide_eq_false_2; [done| |done].
      rewrite not_elem_of_cons. split; [congruence|done].
Qed.

End DictFacts.

Lemma add_key_NoDup (ks : list string) (k : string) : NoDup ks → NoDup (add_key ks k).
Proof.
  unfold add_key. intros H. case_bool_decide as Hk; [done|].
  apply NoDup_app. split_and!; [done| |apply NoDup_singleton].
  intros x Hx ->%list_elem_of_singleton. done.
Qed.

Lemma add_key_elem (ks : list string) (k x : string) :
  x ∈ add_key ks k ↔ x = k ∨ x ∈ ks.
Proof.
  unfold add_key. case_bool_decide as Hk.
  - naive_solver.
  - rewrite elem_of_app, list_elem_of_singleton. naive_solver.
Qed.

Lemma add_keys_NoDup (ks l : list string) : NoDup ks → NoDup (foldl add_key ks l).
Proof.
  revert ks. induction l as [|k r IH]; intros ks H; simpl; [done|].
  by apply IH, add_key_NoDup.
Qed.

Lemma add_keys_elem (ks l : list string) (x : string) :
  x ∈ foldl add_key ks l ↔ x ∈ ks ∨ x ∈ l.
Proof.
  revert ks. induction l as [|k r IH]; intros ks; simpl.
  - rewrite elem_of_nil. naive_solver.
  - rewrite IH, add_key_elem, elem_of_cons. naive_solver.
Qed.

Lemma group_nil_iff {T : Type} (key : T → string) (ts : list T) (k : string) :
  group key k ts = [] ↔ k ∉ map key ts.
Proof.
  unfold group. induction ts as [|t r IH]; simpl.
  - split; [intros _; apply not_elem_of_nil|done].
  - rewrite not_elem_of_cons. destruct (String.eqb_spec (key t) k) as [->|Hne].
    + split; [done|]. by intros [? _].
    + rewrite IH. naive_solver.
Qed.

Section GroupFacts.
Context {T V : Type} (key : T → string) (upd : V → T → V) (z : V).

Lemma group_fold_keys (d : list (string * V)) (ts : list T) :
  map fst (foldl (group_step key upd z) d ts) = foldl add_key (map fst d) (map key ts).
Proof.
  revert d. induction ts as [|t r IH]; intros d; simpl; [done|].
  rewrite IH. unfold group_step. by rewrite dict_set_keys.
Qed.

Lemma group_fold_get (d : list (string * V)) (ts : list T) (k : string) :
  dict_get (foldl (group_step key upd z) d ts) k =
    match group key k ts with
    | [] => dict_get d k
    | g => Some (foldl upd (default z (dict_get d k)) g)
    end.
Proof.
  revert d. induction ts as [|t r IH]; intros d; simpl; [done|].
  rewrite IH. unfold group, group_step. simpl.
  destruct (String.eqb_spec (key t) k) as [->|Hne].
  - rewrite dict_get_set_eq. simpl. by destruct (List.filter _ r).
  - by rewrite dict_get_set_ne.
Qed.

(** The table that a grouping loop builds from the empty one: the keys in
    order of first occurrence, each with the fold of its group. *)
Lemma group_fold_table (ts : list T) :
  foldl (group_step key upd z) [] ts =
    map (λ k, (k, foldl upd z (group key k ts))) (first_seen (map key ts)).
Proof.
  set (d := foldl (group_step key upd z) [] ts).
  assert (Hk : map fst d = first_seen (map key ts)) by apply group_fold_keys.
  assert (Hnd : NoDup (map fst d)).
  { rewrite Hk. apply add_keys_NoDup, NoDup_nil_2. }
  rewrite <- Hk, <- list_fmap_compose.
  rewrite <- (list_fmap_id d) at 1.
  apply Forall_fmap_ext_1, Forall_forall. intros [k v] Hin. simpl.
  f_equal. apply (dict_get_of_elem _ _ _ Hnd) in Hin as Hget.
  unfold d in Hget. rewrite group_fold_get in Hget. simpl in Hget.
  destruct (group key k ts) as [|t g] eqn:Hg; [done|].
  by injection Hget as <-.
Qed.

End GroupFacts.

Lemma first_seen_NoDup (ks : list string) : NoDup (first_seen ks).
Proof. apply add_keys_NoDup, NoDup_nil_2. Qed.

Lemma first_seen_elem (ks : list string) (x : string) : x ∈ first_seen ks ↔ x ∈ ks.
Proof. unfold first_seen. rewrite add_keys_elem, elem_of_nil. naive_solver. Qed.

Lemma first_seen_length (ks : list string) : length (first_seen ks) ≤ length ks.
Proof.
  unfold first_seen.
  enough (∀ acc, length (foldl add_key acc ks) ≤ length acc + length ks) as H
    by apply (H []).
  induction ks as [|k r IH]; intros acc; simpl; [lia|].
  etrans; [apply IH|]. unfold add_key. case_bool_decide; [lia|].
  rewrite length_app. simpl. lia.
Qed.

(** ** The tables of the aggregation loops *)

Section Tables.
Context {F : Type} {PF : PyFloat F}.
Implicit Types (ts : list (record F)) (t : record F).

Lemma fsum_amounts ts (x : F) :
  foldl (λ v t, fadd v (_amount t)) x ts = foldl fadd x (map _amount ts).
Proof. revert x. induction ts as [|t r IH]; intros x; simpl; [done|]. apply IH. Qed.

Lemma region_fold (st : list (string * F) * list (string * nat)) ts :
  foldl region_step st ts =
    (foldl (group_step region_key (λ v t, fadd v (_amount t)) fzero) st.1 ts,
     foldl (group_step region_key (λ n _, n + 1) 0) st.2 ts).
Proof.
  revert st. induction ts as [|t r IH]; intros [d1 d2]; simpl; [done|].
  by rewrite IH.
Qed.

Lemma product_fold (st : list (string * Z) * list (string * F)) ts :
  foldl product_step st ts =
    (foldl (group_step product_key (λ v t, (v + quantity_of t)%Z) 0%Z) st.1 ts,
     foldl (group_step product_key (λ v t, fadd v (_amount t)) fzero) st.2 ts).
Proof.
  revert st. induction ts as [|t r IH]; intros [d1 d2]; simpl; [done|].
  by rewrite IH.
Qed.

Lemma daily_fold (d : list (string * day_acc F)) ts :
  foldl daily_step d ts = foldl (group_step date_of day_upd day_zero) d (dated ts).
Proof.
  revert d. induction ts as [|t r IH]; intros d; [done|].
  cbn [foldl]. rewrite IH. unfold dated. cbn [List.filter].
  unfold daily_step, group_step, day_upd, day_zero.
  destruct (String.eqb (date_of t) ""); cbn; done.
Qed.

Lemma quantity_fold ts (x : Z) :
  foldl (λ v t, (v + quantity_of t)%Z) x ts = foldl Z.add x (map quantity_of ts).
Proof. revert x. induction ts as [|t r IH]; intros x; simpl; [done|]. apply IH. Qed.

(** The rows of the product table, before any sort. *)
Lemma product_rows_table ts :
  product_rows ts =
    map (λ name, (name, group_quantity ts name, group_revenue ts name))
        (first_seen (map product_key ts)).
Proof.
  unfold product_rows. rewrite product_fold. simpl.
  rewrite !group_fold_table, <- list_fmap_compose.
  apply Forall_fmap_ext_1, Forall_forall. intros name Hin. simpl.
  unfold group_quantity, group_revenue, fsum.
  rewrite quantity_fold. f_equal.
  rewrite (dict_get_of_elem _ name (foldl (λ v t, fadd v (_amount t)) fzero
                                      (group product_key name ts))).
  - simpl. apply fsum_amounts.
  - rewrite <- list_fmap_compose. simpl. rewrite list_fmap_id. apply first_seen_NoDup.
  - apply list_elem_of_fmap. by exists name.
Qed.

Lemma product_rows_names ts : map (λ x, x.1.1) (product_rows ts) = first_seen (map product_key ts).
Proof.
  rewrite product_rows_table, <- list_fmap_compose. simpl. apply list_fmap_id.
Qed.


End Tables.

(** ** Sums under the laws of exact addition *)

Section ExactSums.
Context {F : Type} {PF : PyFloat F} (E : exact_sum PF).

Lemma foldl_fadd_start (x : F) (l : list F) : foldl fadd x l = fadd x (fsum l).
Proof.
  unfold fsum. revert x. induction l as [|a r IH]; intros x; simpl.
  - by rewrite (fadd_comm PF E), (fadd_zero PF E).
  - rewrite (IH (fadd x a)), (IH (fadd fzero a)).
    by rewrite (fadd_zero PF E), (fadd_assoc PF E).
Qed.

Lemma fsum_cons (a : F) (l : list F) : fsum (a :: l) = fadd a (fsum l).
Proof.
  unfold fsum at 1. simpl. by rewrite foldl_fadd_start, (fadd_zero PF E).
Qed.

Lemma fsum_perm (l1 l2 : list F) : l1 ≡ₚ l2 → fsum l1 = fsum l2.
Proof.
  induction 1 as [|a l1 l2 _ IH|a b l|l1 l2 l3 _ IH1 _ IH2].
  - done.
  - by rewrite !fsum_cons, IH.
  - rewrite !fsum_cons, !(fadd_assoc PF E). f_equal. apply (fadd_comm PF E).
  - by rewrite IH1.
Qed.

(** Adding [a] to the entry of [k] adds [a] to the sum of the table. *)
Lemma fsum_dict_set (d : list (string * F)) (k : string) (a : F) :
  fsum (map snd (dict_set d k (fadd (default fzero (dict_get d k)) a)))
  = fadd (fsum (map snd d)) a.
Proof.
  induction d as [|[k0 v0] r IH]; simpl.
  - unfold fsum. simpl. by rewrite !(fadd_zero PF E).
  - destruct (String.eqb k0 k); simpl.
    + rewrite !fsum_cons, <- !(fadd_assoc PF E). f_equal. apply (fadd_comm PF E).
    + by rewrite !fsum_cons, IH, (fadd_assoc PF E).
Qed.

Lemma fsum_group_table (d : list (string * F)) (ts : list (record F)) (key : record F → string) :
  fsum (map snd (foldl (group_step key (λ v t, fadd v (_amount t)) fzero) d ts))
  = fadd (fsum (map snd d)) (fsum (map _amount ts)).
Proof.
  revert d. induction ts as [|t r IH]; intros d; simpl.
  - change (fsum []) with (fzero : F). by rewrite (fadd_comm PF E), (fadd_zero PF E).
  - rewrite IH. unfold group_step. rewrite fsum_dict_set, fsum_cons.
    by rewrite (fadd_assoc PF E).
Qed.

End ExactSums.




(** ** Orders *)

Section LexFacts.
Context {X A : Type} (f : X → A) (eqb ltb : A → A → bool) (rest : X → X → bool).
Hypothesis W : weak_order eqb ltb.






End LexFacts.







Lemma not_after_trans {X : Type} (before : X → X → bool) :
  cotransitive before →
  ∀ a b c, not_after before a b → not_after before b c → not_after before a c.
Proof.
  unfold not_after. intros Hc a b c Hab Hbc.
  apply not_true_is_false. intros H. destruct (Hc _ b _ H); congruence.
Qed.

(** A sort on a strict weak order leaves no item strictly before an
    earlier one. *)
Lemma stable_sort_weak_order {X : Type} (before : X → X → bool) (l : list X) :
  asymmetric before → cotransitive before →
  StronglySorted (not_after before) (stable_sort before l).
Proof.
  intros Ha Hc. apply stable_sort_sorted; [exact Ha|by apply not_after_trans].
Qed.

Lemma StronglySorted_weaken {X : Type} (R S : X → X → Prop) (l : list X) :
  (∀ a b, R a b → S a b) → StronglySorted R l → StronglySorted S l.
Proof.
  intros H. induction 1 as [|x r Hr IH Hx]; constructor; [done|].
  eapply Forall_impl; [exact Hx|]. auto.
Qed.



(** The order of strings. *)

Lemma str_ltb_lt (a b : string) : PyStr.ltb a b = true ↔ OrderedTypeEx.String_as_OT.lt a b.
Proof.
  unfold PyStr.ltb, String.ltb. rewrite <- OrderedTypeEx.String_as_OT.cmp_lt.
  unfold OrderedTypeEx.String_as_OT.cmp. by destruct (String.compare a b).
Qed.

Lemma str_weak_order : weak_order String.eqb PyStr.ltb.
Proof.
  assert (Hirr : ∀ a, PyStr.ltb a a = false).
  { intros a. apply not_true_is_false. intros H%str_ltb_lt.
    by apply OrderedTypeEx.String_as_OT.lt_not_eq in H. }
  assert (Htri : ∀ a b, PyStr.ltb a b = false → PyStr.ltb b a = false → a = b).
  { intros a b. unfold PyStr.ltb, String.ltb.
    pose proof (OrderedTypeEx.String_as_OT.cmp_antisym b a) as Hanti.
    unfold OrderedTypeEx.String_as_OT.cmp in Hanti. rewrite Hanti.
    destruct (String.compare a b) eqn:E; simpl; try done.
    intros _ _. by apply OrderedTypeEx.String_as_OT.cmp_eq. }
  assert (Htr : ∀ a b c, PyStr.ltb a b = true → PyStr.ltb b c = true → PyStr.ltb a c = true).
  { intros a b c. rewrite !str_ltb_lt. apply OrderedTypeEx.String_as_OT.lt_trans. }
  split_and!.
  - intros a b H. apply not_true_is_false. intros H'.
    pose proof (Htr _ _ _ H H'). by rewrite Hirr in *.
  - intros a b c H. destruct (PyStr.ltb a b) eqn:E1; [by left|]. right.
    destruct (PyStr.ltb b a) eqn:E2.
    + by apply Htr with a.
    + by rewrite <- (Htri _ _ E1 E2).
  - intros a b. rewrite String.eqb_eq. split.
    + intros ->. by rewrite Hirr.
    + intros [? ?]. by apply Htri.
Qed.

Section FloatOrder.
Context {F : Type} {PF : PyFloat F} (O : ordered_floats PF).










End FloatOrder.

(** ** Product rankings *)

Lemma bfilter_elem {X : Type} (p : X → bool) (l : list X) (x : X) :
  x ∈ List.filter p l ↔ x ∈ l ∧ p x = true.
Proof. rewrite !list_elem_of_In. apply filter_In. Qed.

Lemma bfilter_sublist {X : Type} (p : X → bool) (l : list X) : List.filter p l `sublist_of` l.
Proof.
  induction l as [|x r IH]; simpl; [done|].
  destruct (p x); [by apply sublist_skip|by apply sublist_cons].
Qed.

Section Rankings.
Context {F : Type} {PF : PyFloat F}.
Implicit Types (ts : list (record F)).





End Rankings.



(** ** The daily trend *)

Section Daily.
Context {F : Type} {PF : PyFloat F}.
Implicit Types (ts : list (record F)) (t : record F) (d : string).

Lemma day_upd_fold (acc : day_acc F) (g : list (record F)) :
  da_revenue (foldl day_upd acc g) = foldl fadd (da_revenue acc) (map _amount g)
  ∧ da_transaction_count (foldl day_upd acc g) = da_transaction_count acc + length g
  ∧ da_custs (foldl day_upd acc g)
    = list_to_set (List.filter (λ c, negb (String.eqb c "")) (map customer_of g))
      ∪ da_custs acc.
Proof.
  revert acc. induction g as [|t r IH]; intros acc; simpl.
  - split_and!; [done|lia|set_solver].
  - destruct (IH (day_upd acc t)) as (-> & -> & ->). simpl.
    split_and!; [done|lia|].
    destruct (String.eqb (customer_of t) ""); simpl; set_solver.
Qed.

Lemma group_dated ts d : d ≠ "" → group date_of d (dated ts) = group date_of d ts.
Proof.
  intros Hd. unfold group, dated. induction ts as [|t r IH]; simpl; [done|].
  destruct (String.eqb_spec (date_of t) "") as [E|E]; simpl.
  - rewrite IH. destruct (String.eqb_spec (date_of t) d); [congruence|done].
  - by rewrite IH.
Qed.

Lemma dated_keys_elem ts d :
  d ∈ first_seen (map date_of (dated ts)) ↔ d ≠ "" ∧ ∃ t, t ∈ ts ∧ date_of t = d.
Proof.
  rewrite first_seen_elem, list_elem_of_fmap. unfold dated.
  setoid_rewrite bfilter_elem. setoid_rewrite negb_true_iff.
  setoid_rewrite String.eqb_neq. naive_solver.
Qed.

(** The trend, day by day in ascending order of the date. *)
Lemma daily_sales_trend_table ts :
  daily_sales_trend ts =
    map (λ d, (d, day_stats_of ts d))
        (stable_sort PyStr.ltb (first_seen (map date_of (dated ts)))).
Proof.
  unfold daily_sales_trend. rewrite daily_fold.
  set (daily := foldl (group_step date_of day_upd day_zero) [] (dated ts)).
  assert (Hkeys : map fst daily = first_seen (map date_of (dated ts)))
    by apply group_fold_keys.
  rewrite Hkeys.
  apply Forall_fmap_ext_1, Forall_forall. intros d Hd%stable_sort_elem.
  f_equal. unfold daily. rewrite group_fold_get.
  apply dated_keys_elem in Hd as Hd'. destruct Hd' as [Hne _].
  rewrite (group_dated _ _ Hne).
  assert (Hg : group date_of d ts ≠ []).
  { rewrite <- (group_dated _ _ Hne). intros Hnil%group_nil_iff.
    apply Hnil. by apply first_seen_elem. }
  set (g := group date_of d ts) in *.
  replace (dict_get [] d) with (@None (day_acc F)) by done.
  assert (Hsome : match g with
                  | [] => None
                  | t :: l => Some (foldl day_upd (default day_zero None) (t :: l))
                  end = Some (foldl day_upd day_zero g)) by by destruct g.
  rewrite Hsome. cbn [from_option id].
  destruct (day_upd_fold day_zero g) as (Hrev & Hcnt & Hcus).
  rewrite Hrev, Hcnt, Hcus. unfold day_stats_of, day_customers. fold g.
  simpl. f_equal. f_equal. set_solver.
Qed.



Lemma daily_sales_trend_elem ts d (s : day_stats F) :
  (d, s) ∈ daily_sales_trend ts ↔
    d ≠ "" ∧ (∃ t, t ∈ ts ∧ date_of t = d) ∧ s = day_stats_of ts d.
Proof.
  rewrite daily_sales_trend_table, list_elem_of_fmap.
  setoid_rewrite stable_sort_elem. setoid_rewrite dated_keys_elem. split.
  - intros (d' & [= -> ->] & Hne & Ht). done.
  - intros (Hne & Ht & ->). by exists d.
Qed.



End Daily.



Section DailyClaims.
Context {F : Type} {PF : PyFloat F}.
Implicit Types (ts : list (record F)) (t : record F) (d : string).



End DailyClaims.



(** ** Validation *)

Section Validation.
Context {F : Type} {PF : PyFloat F}.
Implicit Types (ts : list (record F)) (t : record F).

Lemma validate_loop_spec ts (valid : list (record F)) (n : nat) :
  validate_loop ts valid n
  = (valid ++ accepted ts, n + length (List.filter is_rejected ts)).
Proof.
  revert valid n. induction ts as [|t r IH]; intros valid n; simpl.
  - by rewrite app_nil_r, Nat.add_0_r.
  - unfold is_rejected at 1. destruct (check_record t) as [x|rec]; simpl; rewrite IH.
    + f_equal. lia.
    + by rewrite <- app_assoc.
Qed.

Lemma all_fields_present t :
  forallb (λ k, bool_decide (is_Some (t !! k))) EXPECTED_HEADERS = true
  ↔ ¬ rule_fails MissingField t.
Proof.
  rewrite forallb_forall. cbn [rule_fails]. split.
  - intros H (k & Hk & Hnone). apply list_elem_of_In, H, bool_decide_eq_true in Hk.
    rewrite Hnone in Hk. by destruct Hk.
  - intros H k Hk%list_elem_of_In. apply bool_decide_eq_true.
    destruct (t !! k) eqn:E; [done|]. exfalso. apply H. eauto.
Qed.

Lemma some_field_missing t :
  forallb (λ k, bool_decide (is_Some (t !! k))) EXPECTED_HEADERS = false
  → rule_fails MissingField t.
Proof.
  cbn [rule_fails]. induction EXPECTED_HEADERS as [|k r IH]; simpl; [done|].
  destruct (t !! k) eqn:E.
  - rewrite bool_decide_eq_true_2 by eauto. simpl. intros (k' & Hk' & Hn)%IH.
    exists k'. split; [|done]. apply elem_of_cons. by right.
  - intros _. exists k. split; [|done]. apply elem_of_cons. by left.
Qed.

Lemma some_field_blank t :
  existsb (λ k, String.eqb (field t k) "") EXPECTED_HEADERS = true
  ↔ rule_fails BlankField t.
Proof.
  rewrite existsb_exists. cbn [rule_fails]. setoid_rewrite String.eqb_eq.
  setoid_rewrite <- list_elem_of_In. done.
Qed.

Lemma numbers_good t (qty : Z) (price : F) :
  t !! "Quantity" ≫= py_int = Some qty → t !! "UnitPrice" ≫= py_float = Some price →
  (qty <=? 0)%Z || fle price fzero = false ↔ ¬ rule_fails BadNumber t.
Proof.
  intros Hq Hp. simpl. rewrite orb_false_iff, Z.leb_gt. split.
  - intros [Hpos Hle] Hn. apply Hn. by exists qty, price.
  - intros H. destruct (Z.ltb_spec 0 qty) as [Hpos|Hneg].
    + destruct (fle price fzero) eqn:E; [|done].
      exfalso. apply H. intros (q & p & Hq' & Hp' & ? & Hle).
      rewrite Hq in Hq'. rewrite Hp in Hp'. congruence.
    + exfalso. apply H. intros (q & p & Hq' & Hp' & ? & Hle).
      rewrite Hq in Hq'. injection Hq' as <-. lia.
Qed.

Lemma numbers_unconvertible t :
  t !! "Quantity" ≫= py_int = None ∨ t !! "UnitPrice" ≫= py_float = None →
  rule_fails BadNumber t.
Proof.
  simpl. intros [H|H] (q & p & Hq & Hp & _); congruence.
Qed.

(** The exit that [check_record] takes is the first rule that fails; a
    record is kept when none does. *)
Lemma check_record_cases t :
  match check_record t with
  | inl r => rule_fails r t ∧ ∀ r', rule_rank r' < rule_rank r → ¬ rule_fails r' t
  | inr _ => ∀ r, ¬ rule_fails r t
  end.
Proof.
  unfold check_record.
  destruct (forallb (λ k, bool_decide (is_Some (t !! k))) EXPECTED_HEADERS) eqn:H1;
    cbn [negb].
  2:{ split; [by apply some_field_missing|]. earlier_rules_pass. }
  apply all_fields_present in H1.
  destruct (existsb (λ k, String.eqb (field t k) "") EXPECTED_HEADERS) eqn:H2.
  { split; [by apply some_field_blank|]. earlier_rules_pass. }
  assert (H2' : ¬ rule_fails BlankField t).
  { intros Hn%some_field_blank. congruence. }
  destruct (t !! "Quantity" ≫= py_int) as [qty|] eqn:Hq;
    [destruct (t !! "UnitPrice" ≫= py_float) as [price|] eqn:Hp|].
  2,3: split; [apply numbers_unconvertible; auto|earlier_rules_pass].
  destruct ((qty <=? 0)%Z || fle price fzero) eqn:H3.
  { split; [|earlier_rules_pass].
    intros Hn. assert (Hg : ¬ rule_fails BadNumber t) by (intros Hf; by apply Hf).
    apply (numbers_good t qty price Hq Hp) in Hg. congruence. }
  apply (numbers_good t qty price Hq Hp) in H3.
  destruct (PyStr.startswith "T" (py_str (get t "TransactionID" VNone))) eqn:H4;
    cbn [negb].
  2:{ split; [done|earlier_rules_pass]. }
  destruct (PyStr.startswith "P" (py_str (get t "ProductID" VNone))) eqn:H5;
    cbn [negb].
  2:{ split; [done|earlier_rules_pass]. }
  destruct (PyStr.startswith "C" (py_str (get t "CustomerID" VNone))) eqn:H6;
    cbn [negb].
  2:{ split; [done|earlier_rules_pass]. }
  intros r. destruct r; cbn [rule_fails]; try done; congruence.
Qed.

Lemma check_record_first_failing t (r : rule) :
  check_record t = inl r ↔
    rule_fails r t ∧ ∀ r', rule_rank r' < rule_rank r → ¬ rule_fails r' t.
Proof.
  pose proof (check_record_cases t) as H. split.
  - intros E. by rewrite E in H.
  - intros [Hr Hfirst]. destruct (check_record t) as [r0|rec].
    + destruct H as [Hr0 Hfirst0]. f_equal.
      destruct (lt_eq_lt_dec (rule_rank r0) (rule_rank r)) as [[Hlt|Heq]|Hlt].
      * by destruct (Hfirst _ Hlt).
      * destruct r0, r; simpl in Heq; congruence.
      * by destruct (Hfirst0 _ Hlt).
    + by destruct (H r).
Qed.





End Validation.


(** ** Enrichment *)




(** ** The enriched side-file *)


Lemma append_assoc (a b c : string) : (a +:+ b) +:+ c = a +:+ (b +:+ c).
Proof.
  induction a as [|x r IH]; [done|].
  change (String x ((r +:+ b) +:+ c) = String x (r +:+ (b +:+ c))). by rewrite IH.
Qed.


(** C3, on two enriched records.  The file that [save_enriched_data] writes
    for a matched and an unmatched record is the header and the two rows run
    together: it holds no line feed, so it reads back as one line whose 12th
    column is "API_MatchT1", and no data row, hence no [API_Match] flag, is
    read back, while the records in memory carry "True" and "False". *)
Theorem enriched_file_has_no_line_ends :
  let enriched := map (enrich_record Sample.mapping) [Sample.t1; Sample.t2] in
  let text :=
    "TransactionID|Date|ProductID|ProductName|Quantity|UnitPrice|CustomerID|Region|API_Category|API_Brand|API_Rating|API_MatchT1|2024-01-01|P100|Widget|2|10.0|C1|North|Toys|Acme|4.5|TrueT2|2024-01-02|P101|Gadget|5|2.5|C2|South||||False" in
  save_enriched_data ∅ enriched "data/enriched_sales_data.txt"
  = ({[ "data/enriched_sales_data.txt" := text ]}, true)
  ∧ map match_flag enriched = ["True"; "False"]
  ∧ PyStr.splitlines text = [text]
  ∧ PyStr.split "|" text !! 11 = Some "API_MatchT1"
  ∧ match_cell_read_back text 0 = None
  ∧ match_cell_read_back text 1 = None.
Proof.
  split_and!.
  - unfold save_enriched_data.
    replace (write_rows _ _) with
      ("TransactionID|Date|ProductID|ProductName|Quantity|UnitPrice|CustomerID|Region|API_Category|API_Brand|API_Rating|API_MatchT1|2024-01-01|P100|Widget|2|10.0|C1|North|Toys|Acme|4.5|TrueT2|2024-01-02|P101|Gadget|5|2.5|C2|South||||False", true)
      by (vm_compute; reflexivity).
    by rewrite insert_empty.
  - vm_compute; reflexivity.
  - vm_compute; reflexivity.
  - vm_compute; reflexivity.
  - vm_compute; reflexivity.
  - vm_compute; reflexivity.
Qed.

(** ** Reading the ledger *)



(** C9, on a one-line ledger.  The line that [read_sales_data] returns for
    the file holding [T1|2024-01-01|P100|Widget|2|10.00|C1|North] and a line
    feed still ends with the line feed: it is not right-trimmed. *)
Theorem read_sales_data_keeps_the_line_end :
  read_sales_data [Sample.ledger_line]
  = ["T1|2024-01-01|P100|Widget|2|10.00|C1|North" +:+ PyStr.LF]
  ∧ PyStr.rstrip Sample.ledger_line = "T1|2024-01-01|P100|Widget|2|10.00|C1|North"
  ∧ ∃ s, s ∈ read_sales_data [Sample.ledger_line] ∧ PyStr.rstrip s ≠ s.
Proof.
  split_and!; [vm_compute; reflexivity..|].
  exists Sample.ledger_line. split.
  - replace (read_sales_data [Sample.ledger_line]) with [Sample.ledger_line]
      by (vm_compute; reflexivity).
    apply list_elem_of_singleton. done.
  - vm_compute. intros H. discriminate H.
Qed.

(** ** The report *)

(** C4, as the code has it.  [generate_sales_report] writes the report
    text, which is the lines joined by line feeds and ended by one, to the
    target path as it is, and returns the absolute path of the target, not
    the text. *)
Theorem generate_sales_report_returns_the_path
    {F : Type} {PF : PyFloat F} (env : os_env) (fs : gmap string string)
    (txns : list (record F)) (etxns : option (list (record F)))
    (output_file currency_symbol : string) (low_threshold : Z) :
  let text := report_text env txns (default [] etxns) currency_symbol low_threshold in
  let result :=
    generate_sales_report env fs txns etxns output_file currency_symbol low_threshold in
  result.1 !! output_file = Some text
  ∧ (∀ p, p ≠ output_file → result.1 !! p = fs !! p)
  ∧ result.2 = os_abspath env output_file
  ∧ text = PyStr.join PyStr.LF
             (report_lines env txns (default [] etxns) currency_symbol low_threshold)
           +:+ PyStr.LF.
Proof.
  intros text result. unfold result, generate_sales_report. simpl.
  split_and!; [by rewrite lookup_insert_eq| |done|done].
  intros p Hp. by rewrite lookup_insert_ne.
Qed.

(** The claim C4 fails on the sample ledger: what is returned is the path
    [/srv/sales/output/sales_report.txt], and the text written to the file
    is another string. *)
Lemma generate_sales_report_does_not_return_the_text :
  let txns := [Sample.t1; Sample.t2; Sample.t3] in
  let etxns := map (enrich_record Sample.mapping) txns in
  let result :=
    generate_sales_report Sample.env ∅ txns (Some etxns) "output/sales_report.txt" "$" 10 in
  result.2 = "/srv/sales/output/sales_report.txt"
  ∧ result.1 !! "output/sales_report.txt"
    = Some (report_text Sample.env txns etxns "$" 10)
  ∧ result.2 ≠ report_text Sample.env txns etxns "$" 10.
Proof.
  split_and!.
  - vm_compute; reflexivity.
  - cbn [generate_sales_report fst default from_option id]. by rewrite lookup_insert_eq.
  - vm_compute. intros H. discriminate H.
Qed.

(** ** The laws on the instance of hundredths, and the properties on the
    sample ledger *)

Lemma cents_exact_sum : exact_sum Cents.cents.
Proof. split; cbv [fadd fzero Cents.cents]; intros; lia. Qed.

Lemma cents_ordered : ordered_floats Cents.cents.
Proof. split; cbv [flt feq Cents.cents]; intros; lia. Qed.









(** * Further properties *)

(** ** The validator: accounting, surviving records, filters *)

Section ValidatorFacts.
Context {F : Type} {PF : PyFloat F}.
Implicit Types (ts : list (record F)) (t r : record F).

Lemma accepted_rejected_length ts :
  length (accepted ts) + length (List.filter is_rejected ts) = length ts.
Proof.
  unfold accepted, is_rejected. induction ts as [|t rest IH]; [done|].
  cbn. destruct (check_record t); cbn in *; lia.
Qed.

Lemma bfilter_length_le {X : Type} (p : X → bool) (l : list X) :
  length (List.filter p l) ≤ length l.
Proof. apply List.filter_length_le. Qed.

Lemma accepted_elem ts r :
  r ∈ accepted ts ↔ ∃ t, t ∈ ts ∧ check_record t = inr r.
Proof.
  unfold accepted. rewrite list_elem_of_omap. split.
  - intros (t & Ht & Hc). exists t. split; [done|].
    destruct (check_record t); by simplify_eq.
  - intros (t & Ht & Hc). exists t. split; [done|]. by rewrite Hc.
Qed.

(** What [check_record] has found when it keeps a record. *)
Lemma check_record_kept t r :
  check_record t = inr r →
  ∃ qty price,
    t !! "Quantity" ≫= py_int = Some qty
    ∧ t !! "UnitPrice" ≫= py_float = Some price
    ∧ r = <["_amount" := VFloat (fmul (float_of_int qty) price)]>
            (<["UnitPrice" := VFloat price]> (<["Quantity" := VInt qty]> t))
    ∧ (0 < qty)%Z ∧ fle price fzero = false.
Proof.
  unfold check_record.
  destruct (negb _); [done|]. destruct (existsb _ _); [done|].
  destruct (t !! "Quantity" ≫= py_int) as [qty|]; [|done].
  destruct (t !! "UnitPrice" ≫= py_float) as [price|]; [|done].
  destruct ((qty <=? 0)%Z || fle price fzero) eqn:E; [done|].
  repeat (destruct (negb _); [done|]).
  intros [= <-]. exists qty, price.
  apply orb_false_iff in E as [Hq%Z.leb_gt Hp]. done.
Qed.

Lemma field_kept t (k : string) (qty : Z) (price : F) :
  k ≠ "Quantity" → k ≠ "UnitPrice" → k ≠ "_amount" →
  delete "_amount" (<["UnitPrice" := VFloat price]> (<["Quantity" := VInt qty]> t)) !! k
  = t !! k.
Proof. intros. by rewrite lookup_delete_ne, !lookup_insert_ne by done. Qed.

End ValidatorFacts.

(** X1.  The counts of the summary account for every input record: what came in
    is what was rejected, what the region filter removed, what the amount
    filters removed and what is returned; and the summary repeats the
    returned count of invalid records and the number of returned records. *)
Theorem validate_and_filter_summary_adds_up
    {F : Type} {PF : PyFloat F} (ts : list (record F))
    (region : option string) (min_amount max_amount : option F) :
  let out := validate_and_filter ts region min_amount max_amount in
  total_input out.2 = length ts
  ∧ invalid out.2 = out.1.2
  ∧ final_count out.2 = length out.1.1
  ∧ total_input out.2
    = invalid out.2 + filtered_by_region out.2 + filtered_by_amount out.2
      + final_count out.2.
Proof.
  unfold validate_and_filter. rewrite validate_loop_spec. cbn [fst snd].
  cbn [total_input invalid filtered_by_region filtered_by_amount final_count].
  rewrite app_nil_l, Nat.add_0_l.
  pose proof (accepted_rejected_length ts) as Hlen.
  set (valid := accepted ts) in *.
  set (by_region := match region with
                    | Some (String c g) =>
                        List.filter (λ r, String.eqb (field r "Region") (String c g)) valid
                    | _ => valid
                    end).
  assert (H1 : length by_region ≤ length valid).
  { unfold by_region. destruct region as [[|c g]|]; try done. apply bfilter_length_le. }
  set (by_min := match min_amount with
                 | Some m => List.filter (λ r, fle m (amount_of r)) by_region
                 | None => by_region
                 end).
  assert (H2 : length by_min ≤ length by_region).
  { unfold by_min. destruct min_amount; [apply bfilter_length_le|done]. }
  set (by_max := match max_amount with
                 | Some m => List.filter (λ r, fle (amount_of r) m) by_min
                 | None => by_min
                 end).
  assert (H3 : length by_max ≤ length by_min).
  { unfold by_max. destruct max_amount; [apply bfilter_length_le|done]. }
  rewrite length_fmap. split_and!; [done..|lia].
Qed.


(** X3.  The filters only remove records: what is returned with filters is, in
    the same order, part of what is returned without any, and the count of
    invalid records does not depend on the filters. *)
Theorem validate_and_filter_filters_only_remove
    {F : Type} {PF : PyFloat F} (ts : list (record F))
    (region : option string) (min_amount max_amount : option F) :
  (validate_and_filter ts region min_amount max_amount).1.1
    `sublist_of` (validate_and_filter ts None None None).1.1
  ∧ (validate_and_filter ts region min_amount max_amount).1.2
    = (validate_and_filter ts None None None).1.2.
Proof.
  unfold validate_and_filter. rewrite validate_loop_spec. cbn [fst snd].
  split; [|done]. apply fmap_sublist.
  destruct max_amount; [etrans; [apply bfilter_sublist|]|];
    (destruct min_amount; [etrans; [apply bfilter_sublist|]|]);
    (destruct region as [[|c g]|]; [done|apply bfilter_sublist|done]).
Qed.

(** ** The stable sort keeps ties in place *)

Section Stability.
Context {A : Type} (before : A → A → bool) (p : A → bool).
Hypothesis ties : ∀ a b, p a = true → p b = true → before a b = false.

Lemma insert_sorted_filter (x : A) (l : list A) :
  List.filter p (insert_sorted before x l) = List.filter p (x :: l).
Proof.
  induction l as [|y r IH]; [done|]. cbn [insert_sorted].
  destruct (before y x) eqn:E; [|done].
  cbn [List.filter] in *. rewrite IH.
  destruct (p y) eqn:Hy, (p x) eqn:Hx; try done.
  by rewrite (ties _ _ Hy Hx) in E.
Qed.

Lemma stable_sort_filter (l : list A) :
  List.filter p (stable_sort before l) = List.filter p l.
Proof.
  induction l as [|x r IH]; [done|]. cbn [stable_sort].
  rewrite insert_sorted_filter. cbn [List.filter]. by rewrite IH.
Qed.

End Stability.

(** ** Groups and their sizes *)

Lemma sum_indicator (ks : list string) (k0 : string) :
  NoDup ks → k0 ∈ ks →
  sum_list_with (λ k, if String.eqb k0 k then 1 else 0) ks = 1.
Proof.
  induction 1 as [|k ks Hk Hnd IH]; [by intros ?%elem_of_nil|].
  intros Hin. cbn [sum_list_with].
  destruct (String.eqb_spec k0 k) as [->|Hne].
  - assert (sum_list_with (λ k', if String.eqb k k' then 1 else 0) ks = 0) as ->; [|done].
    clear IH Hin Hnd. induction ks as [|k' ks IH]; [done|]. cbn [sum_list_with].
    apply not_elem_of_cons in Hk as [Hne Hk].
    destruct (String.eqb_spec k k'); [done|]. by rewrite IH.
  - apply elem_of_cons in Hin as [?|Hin]; [done|]. by rewrite IH.
Qed.


Lemma count_fold {T : Type} (g : list T) (n : nat) :
  foldl (λ m _, m + 1) n g = n + length g.
Proof.
  revert n. induction g as [|t r IH]; intros n; cbn [foldl length]; [lia|].
  rewrite IH. lia.
Qed.

(** ** Regions *)

Section Regions.
Context {F : Type} {PF : PyFloat F}.
Implicit Types (ts : list (record F)).

Lemma region_wise_sales_table ts :
  region_wise_sales ts
  = stable_sort (by_key_desc (λ kv, rs_total_sales kv.2))
      (map (λ r, (r, region_entry ts r)) (first_seen (map region_key ts))).
Proof.
  unfold region_wise_sales. rewrite region_fold. cbn [fst snd].
  rewrite !group_fold_table. f_equal.
  rewrite <- !list_fmap_compose.
  apply Forall_fmap_ext_1, Forall_forall. intros r Hr. cbn.
  f_equal. unfold region_entry, region_grand.
  rewrite (dict_get_of_elem _ r (foldl (λ n _, n + 1) 0 (group region_key r ts))).
  - cbn. rewrite count_fold, fsum_amounts. cbn.
    f_equal. f_equal.
    assert (Hg : ∀ l : list string,
              (snd ∘ (λ k, (k, foldl (λ v t, fadd v (_amount t)) fzero
                                  (group region_key k ts)))) <$> l
              = map (λ k, fsum (map _amount (group region_key k ts))) l).
    { intros l. apply Forall_fmap_ext_1, Forall_forall. intros k _. cbn.
      apply fsum_amounts. }
    unfold fsum. by rewrite Hg.
  - rewrite <- list_fmap_compose. cbn. rewrite list_fmap_id. apply first_seen_NoDup.
  - apply list_elem_of_fmap. by exists r.
Qed.

End Regions.




(** X5.  When the floats compare as a strict weak order, the rows of
    [region_wise_sales] come with the largest total first: no row has a
    total below that of a later row; and rows that the order does not
    separate, such as rows with equal totals, stay in the order in which
    their regions first occur in the input. *)
Theorem region_wise_sales_descending_and_stable
    {F : Type} {PF : PyFloat F} (O : ordered_floats PF) (ts : list (record F)) :
  StronglySorted (λ a b, flt (rs_total_sales a.2) (rs_total_sales b.2) = false)
                 (region_wise_sales ts)
  ∧ ∀ p : string * region_stats F → bool,
      (∀ a b, p a = true → p b = true →
              flt (rs_total_sales a.2) (rs_total_sales b.2) = false) →
      map fst (List.filter p (region_wise_sales ts))
      = List.filter (λ r, p (r, region_entry ts r)) (first_seen (map region_key ts)).
Proof.
  rewrite region_wise_sales_table.
  set (before := by_key_desc (λ kv : string * region_stats F, rs_total_sales kv.2)).
  split.
  - apply StronglySorted_weaken with (not_after before).
    + intros a b Hab. unfold not_after, before, by_key_desc in Hab. done.
    + apply stable_sort_weak_order.
      * unfold before, by_key_desc. intros a b. apply (flt_asym PF O).
      * unfold before, by_key_desc. intros a b c H.
        destruct (flt_cotrans PF O _ (rs_total_sales b.2) _ H); auto.
  - intros p Hties. rewrite (stable_sort_filter before p).
    + induction (first_seen (map region_key ts)) as [|r l IH]; [done|].
      cbn [map List.filter fmap list_fmap]. destruct (p (r, region_entry ts r)); cbn; by rewrite IH.
    + intros a b Ha Hb. unfold before, by_key_desc. by apply Hties.
Qed.

(** ** Customers *)

Section Customers.
Context {F : Type} {PF : PyFloat F}.
Implicit Types (ts : list (record F)).

Lemma customer_fold
    (st : list (string * F) * list (string * nat) * list (string * gset string)) ts :
  foldl customer_step st ts =
    (foldl (group_step customer_key (λ v t, fadd v (_amount t)) fzero) st.1.1 ts,
     foldl (group_step customer_key (λ n _, n + 1) 0) st.1.2 ts,
     foldl (group_step customer_key (λ s t, {[product_key t]} ∪ s) ∅) st.2 ts).
Proof.
  revert st. induction ts as [|t r IH]; intros [[d1 d2] d3]; cbn [foldl]; [done|].
  by rewrite IH.
Qed.

Lemma products_fold (g : list (record F)) (s : gset string) :
  foldl (λ s t, {[product_key t]} ∪ s) s g = list_to_set (map product_key g) ∪ s.
Proof.
  revert s. induction g as [|t r IH]; intros s; cbn [foldl]; [set_solver|].
  rewrite IH. set_solver.
Qed.

Lemma table_lookup {V : Type} (f : string → V) (ks : list string) (k : string) :
  k ∈ first_seen ks → dict_get (map (λ k, (k, f k)) (first_seen ks)) k = Some (f k).
Proof.
  intros Hk. apply dict_get_of_elem.
  - rewrite <- list_fmap_compose. cbn. rewrite list_fmap_id. apply first_seen_NoDup.
  - apply list_elem_of_fmap. by exists k.
Qed.

Lemma customer_analysis_table ts :
  customer_analysis ts
  = stable_sort (by_key_desc (λ kv, cs_total_spent kv.2))
      (map (λ cid, (cid, customer_entry ts cid)) (first_seen (map customer_key ts))).
Proof.
  unfold customer_analysis. rewrite customer_fold. cbn [fst snd].
  rewrite !group_fold_table. f_equal.
  rewrite <- !list_fmap_compose.
  apply Forall_fmap_ext_1, Forall_forall. intros cid Hc. cbn.
  rewrite !table_lookup by done. cbn.
  unfold customer_entry. rewrite count_fold, fsum_amounts, products_fold. cbn.
  fold (fsum (map _amount (group customer_key cid ts))).
  f_equal. f_equal. f_equal. f_equal. set_solver.
Qed.

End Customers.

Lemma sorted_names_ascending (l : list string) :
  NoDup l → StronglySorted (λ a b, PyStr.ltb a b = true) (stable_sort PyStr.ltb l).
Proof.
  intros Hl.
  assert (Hnd : NoDup (stable_sort PyStr.ltb l)) by by rewrite stable_sort_perm.
  destruct str_weak_order as (Ha & Hc & He).
  assert (Hs : StronglySorted (not_after PyStr.ltb) (stable_sort PyStr.ltb l))
    by by apply stable_sort_weak_order.
  induction Hs as [|x r Hr IH Hx]; [constructor|].
  apply NoDup_cons in Hnd as [Hx' Hnd]. constructor; [by apply IH|].
  apply Forall_forall. intros y Hy.
  eapply Forall_forall in Hx; [|exact Hy]. unfold not_after in Hx.
  destruct (PyStr.ltb x y) eqn:E; [done|].
  assert (String.eqb x y = true) as ->%String.eqb_eq by by apply He.
  done.
Qed.

Lemma group_length_pos {T : Type} (key : T → string) (ts : list T) (k : string) :
  k ∈ map key ts → 0 < length (group key k ts).
Proof.
  intros Hk. destruct (group key k ts) eqn:E; [|cbn; lia].
  apply group_nil_iff in E. done.
Qed.


Lemma customer_rows_elem {F : Type} {PF : PyFloat F} (ts : list (record F))
    (c : string) (st : customer_stats F) :
  (c, st) ∈ customer_analysis ts ↔ c ∈ map customer_key ts ∧ st = customer_entry ts c.
Proof.
  rewrite customer_analysis_table, stable_sort_elem, list_elem_of_fmap.
  setoid_rewrite first_seen_elem. split.
  - intros (c' & [= -> ->] & Hc). done.
  - intros [Hc ->]. by exists c.
Qed.



(** X8.  When the floats compare as a strict weak order, the rows of
    [customer_analysis] come with the largest spender first: no row has a
    total below that of a later row; and rows that the order does not
    separate stay in the order in which their customers first occur in the
    input. *)
Theorem customer_analysis_descending_and_stable
    {F : Type} {PF : PyFloat F} (O : ordered_floats PF) (ts : list (record F)) :
  StronglySorted (λ a b, flt (cs_total_spent a.2) (cs_total_spent b.2) = false)
                 (customer_analysis ts)
  ∧ ∀ p : string * customer_stats F → bool,
      (∀ a b, p a = true → p b = true →
              flt (cs_total_spent a.2) (cs_total_spent b.2) = false) →
      map fst (List.filter p (customer_analysis ts))
      = List.filter (λ c, p (c, customer_entry ts c)) (first_seen (map customer_key ts)).
Proof.
  rewrite customer_analysis_table.
  set (before := by_key_desc (λ kv : string * customer_stats F, cs_total_spent kv.2)).
  split.
  - apply StronglySorted_weaken with (not_after before).
    + intros a b Hab. unfold not_after, before, by_key_desc in Hab. done.
    + apply stable_sort_weak_order.
      * unfold before, by_key_desc. intros a b. apply (flt_asym PF O).
      * unfold before, by_key_desc. intros a b c0 H.
        destruct (flt_cotrans PF O _ (cs_total_spent b.2) _ H); auto.
  - intros p Hties. rewrite (stable_sort_filter before p).
    + induction (first_seen (map customer_key ts)) as [|r l IH]; [done|].
      cbn [map List.filter fmap list_fmap]. destruct (p (r, customer_entry ts r)); cbn; by rewrite IH.
    + intros a b Ha Hb. unfold before, by_key_desc. by apply Hties.
Qed.

(** ** The daily trend and the totals under reordering *)

Lemma sorted_perm_eq (l1 l2 : list string) :
  StronglySorted (λ a b, PyStr.ltb a b = true) l1 →
  StronglySorted (λ a b, PyStr.ltb a b = true) l2 →
  l1 ≡ₚ l2 → l1 = l2.
Proof.
  destruct str_weak_order as (Ha & _ & _).
  intros H1. revert l2. induction H1 as [|x r1 Hr1 IH Hx]; intros l2 H2 Hp.
  - by apply Permutation_nil_l in Hp.
  - destruct H2 as [|y r2 Hr2 Hy].
    { by apply Permutation_nil_r in Hp. }
    assert (x = y) as <-.
    { destruct (decide (x = y)) as [|Hne]; [done|]. exfalso.
      assert (Hxin : x ∈ y :: r2) by (rewrite <- Hp; left).
      assert (Hyin : y ∈ x :: r1) by (rewrite Hp; left).
      apply elem_of_cons in Hxin as [?|Hxin]; [done|].
      apply elem_of_cons in Hyin as [?|Hyin]; [done|].
      eapply Forall_forall in Hx; [|exact Hyin].
      eapply Forall_forall in Hy; [|exact Hxin].
      apply Ha in Hx. congruence. }
    f_equal. apply IH; [done|]. by apply (Permutation_cons_inv Hp).
Qed.

Lemma bfilter_perm {X : Type} (p : X → bool) (l1 l2 : list X) :
  l1 ≡ₚ l2 → List.filter p l1 ≡ₚ List.filter p l2.
Proof.
  induction 1 as [|x l1 l2 _ IH|x y l|l1 l2 l3 _ IH1 _ IH2]; cbn.
  - done.
  - destruct (p x); by rewrite IH.
  - destruct (p x), (p y); try done. apply perm_swap.
  - by etrans.
Qed.





Section Reordering.
Context {F : Type} {PF : PyFloat F} (E : exact_sum PF).
Implicit Types (ts : list (record F)).

Lemma group_perm {T : Type} (key : T → string) (k : string) (l1 l2 : list T) :
  l1 ≡ₚ l2 → group key k l1 ≡ₚ group key k l2.
Proof. apply bfilter_perm. Qed.

Lemma day_stats_of_perm ts1 ts2 d :
  ts1 ≡ₚ ts2 → day_stats_of ts1 d = day_stats_of ts2 d.
Proof.
  intros Hp. pose proof (group_perm date_of d _ _ Hp) as Hg.
  unfold day_stats_of, day_customers. f_equal.
  - f_equal. apply (fsum_perm E). by rewrite Hg.
  - by rewrite Hg.
  - f_equal. apply set_eq. intros c.
    rewrite !elem_of_list_to_set, !bfilter_elem, !list_elem_of_fmap.
    by setoid_rewrite Hg.
Qed.

Lemma trend_dates_perm ts1 ts2 :
  ts1 ≡ₚ ts2 →
  stable_sort PyStr.ltb (first_seen (map date_of (dated ts1)))
  = stable_sort PyStr.ltb (first_seen (map date_of (dated ts2))).
Proof.
  intros Hp. apply sorted_perm_eq.
  - apply sorted_names_ascending, first_seen_NoDup.
  - apply sorted_names_ascending, first_seen_NoDup.
  - rewrite !stable_sort_perm.
    apply NoDup_Permutation; [apply first_seen_NoDup..|].
    intros d. rewrite !dated_keys_elem. by setoid_rewrite Hp.
Qed.

End Reordering.

(** X10.  In exact arithmetic the order of the records does not matter to the
    total revenue, to the daily trend or to the peak day: a reordered input
    gives the same results. *)
Theorem revenue_and_trend_ignore_the_order_of_records
    {F : Type} {PF : PyFloat F} (E : exact_sum PF) (ts1 ts2 : list (record F)) :
  ts1 ≡ₚ ts2 →
  calculate_total_revenue ts1 = calculate_total_revenue ts2
  ∧ daily_sales_trend ts1 = daily_sales_trend ts2
  ∧ find_peak_sales_day ts1 = find_peak_sales_day ts2.
Proof.
  intros Hp.
  assert (Ht : daily_sales_trend ts1 = daily_sales_trend ts2).
  { rewrite !daily_sales_trend_table, (trend_dates_perm ts1 ts2 Hp).
    apply Forall_fmap_ext_1, Forall_forall. intros d _.
    by rewrite (day_stats_of_perm E ts1 ts2 d Hp). }
  split_and!; [|done|].
  - unfold calculate_total_revenue. rewrite !fsum_amounts.
    apply (fsum_perm E). by rewrite Hp.
  - unfold find_peak_sales_day. by rewrite Ht.
Qed.

(** X11.  In exact arithmetic the total revenue of two batches is the sum of
    their totals, and a record whose Quantity or UnitPrice does not convert
    to a number adds nothing to it. *)
Theorem calculate_total_revenue_of_batches
    {F : Type} {PF : PyFloat F} (E : exact_sum PF) (ts1 ts2 : list (record F)) :
  calculate_total_revenue (ts1 ++ ts2)
  = fadd (calculate_total_revenue ts1) (calculate_total_revenue ts2)
  ∧ ∀ t, (py_int (get t "Quantity" (VInt 0)) = None
          ∨ py_float (get t "UnitPrice" (VFloat fzero)) = None) →
         calculate_total_revenue (ts1 ++ t :: ts2) = calculate_total_revenue (ts1 ++ ts2).
Proof.
  assert (Happ : ∀ a b : list (record F),
            calculate_total_revenue (a ++ b)
            = fadd (calculate_total_revenue a) (calculate_total_revenue b)).
  { intros a b. unfold calculate_total_revenue. rewrite foldl_app.
    rewrite !fsum_amounts. apply (foldl_fadd_start E). }
  split; [apply Happ|].
  intros t Hbad.
  assert (Hz : _amount t = fzero).
  { unfold _amount. destruct Hbad as [-> | ->]; [done|].
    by destruct (py_int _). }
  rewrite !Happ. f_equal.
  change (t :: ts2) with ([t] ++ ts2). rewrite Happ.
  unfold calculate_total_revenue at 1. cbn. rewrite Hz.
  by rewrite !(fadd_zero PF E).
Qed.

(** ** The two product rankings together *)

(** X12.  Asking [top_selling_products] for fewer products gives the first rows of
    what asking for more gives; asked for at least as many as there are
    product names it returns every product, and [low_performing_products]
    then holds the rows of that full ranking whose quantity is below the
    threshold, and no others. *)
Theorem top_selling_products_prefix_and_full
    {F : Type} {PF : PyFloat F} (ts : list (record F)) (n m : Z) :
  (n ≤ m)%Z →
  top_selling_products ts n = take (Z.to_nat n) (top_selling_products ts m)
  ∧ (length (first_seen (map product_key ts)) ≤ Z.to_nat m →
     top_selling_products ts m ≡ₚ product_rows ts
     ∧ ∀ threshold x,
         x ∈ low_performing_products ts threshold ↔
         x ∈ top_selling_products ts m ∧ (x.1.2 < threshold)%Z).
Proof.
  intros Hnm. unfold top_selling_products.
  set (before := λ x y : string * Z * F, pair_lt (y.1.2, y.2) (x.1.2, x.2)).
  split.
  - rewrite take_take. f_equal. lia.
  - intros Hall.
    assert (Hfull : take (Z.to_nat (Z.max m 0)) (stable_sort before (product_rows ts))
                    = stable_sort before (product_rows ts)).
    { apply take_ge. rewrite stable_sort_length.
      rewrite <- (length_fmap (λ x : string * Z * F, x.1.1)), product_rows_names. lia. }
    rewrite Hfull. split; [apply stable_sort_perm|].
    intros threshold x. unfold low_performing_products.
    rewrite !stable_sort_elem, bfilter_elem, Z.ltb_lt. done.
Qed.

(** ** The parser *)

Section ParserFacts.
Context {F : Type} {PF : PyFloat F}.

(** What [parse_line] has found when it appends a row. *)
Lemma parse_line_Some (line : string) (r : record F) :
  parse_line line = Some r →
  line ≠ "" ∧ PyStr.contains "|" line = true
  ∧ ∃ tid date pid name quantity unit_price cid region qty price,
      map PyStr.strip (PyStr.split "|" line)
      = [tid; date; pid; name; quantity; unit_price; cid; region]
      ∧ float_of_str (or_zero (_sanitize_number (Some quantity))) ≫= int_of_float
        = Some qty
      ∧ float_of_str (or_zero (_sanitize_number (Some unit_price))) = Some price
      ∧ r = <["UnitPrice" := VFloat price]>
              (<["Quantity" := VInt qty]>
                 (<["ProductName" := VStr (_clean_product_name (Some name))]>
                    (list_to_map
                       (zip EXPECTED_HEADERS
                            (VStr <$> [tid; date; pid; name; quantity; unit_price;
                                       cid; region]))))).
Proof.
  unfold parse_line.
  destruct (String.eqb_spec line "") as [->|Hne]; [done|]. cbn [orb].
  destruct (PyStr.contains "|" line) eqn:Hbar; [|done]. cbn [negb].
  destruct (map PyStr.strip (PyStr.split "|" line))
    as [|tid [|date [|pid [|name [|quantity [|unit_price [|cid [|region [|? ?]]]]]]]]];
    try done.
  destruct (float_of_str (or_zero (_sanitize_number (Some quantity))) ≫= int_of_float)
    as [qty|] eqn:Hq; [|done].
  destruct (float_of_str (or_zero (_sanitize_number (Some unit_price))))
    as [price|] eqn:Hp; [|done].
  intros [= <-]. split_and!; [done..|].
  by exists tid, date, pid, name, quantity, unit_price, cid, region, qty, price.
Qed.

Lemma parse_line_wrong_count (line : string) :
  length (PyStr.split "|" line) ≠ 8 → parse_line line = None.
Proof.
  intros Hlen. destruct (parse_line line) as [r|] eqn:E; [|done].
  apply parse_line_Some in E as (_ & _ & tid & date & pid & name & quantity
    & unit_price & cid & region & qty & price & Hparts & _).
  apply (f_equal length) in Hparts. rewrite length_fmap in Hparts. done.
Qed.

Lemma parse_transactions_length (raw_lines : list string) :
  length (parse_transactions (F := F) raw_lines) ≤ length raw_lines.
Proof.
  unfold parse_transactions. induction raw_lines as [|l r IH]; [done|].
  cbn. destruct (parse_line l); cbn; lia.
Qed.

Lemma parse_transactions_elem (raw_lines : list string) (r : record F) :
  r ∈ parse_transactions raw_lines ↔
  ∃ line, line ∈ raw_lines ∧ parse_line line = Some r.
Proof. unfold parse_transactions. apply list_elem_of_omap. Qed.

End ParserFacts.

(** X13.  Every row of [parse_transactions] comes from a line that holds a pipe
    and has eight fields, and has exactly the eight expected keys: Quantity
    is an [int], UnitPrice a [float] and the six others are strings.  The
    validator therefore never rejects a parsed row for a missing field,
    and for its numbers only when Quantity is not above 0 or UnitPrice is
    [<= 0]. *)
Theorem parse_transactions_rows_are_typed
    {F : Type} {PF : PyFloat F} (raw_lines : list string) (r : record F) :
  r ∈ parse_transactions raw_lines →
  (∃ line, line ∈ raw_lines ∧ PyStr.contains "|" line = true
           ∧ length (PyStr.split "|" line) = 8)
  ∧ (∀ k, is_Some (r !! k) ↔ k ∈ EXPECTED_HEADERS)
  ∧ (∀ k, k ∈ ["TransactionID"; "Date"; "ProductID"; "ProductName";
               "CustomerID"; "Region"] → ∃ s, r !! k = Some (VStr s))
  ∧ ∃ qty price,
      r !! "Quantity" = Some (VInt qty) ∧ r !! "UnitPrice" = Some (VFloat price)
      ∧ ∀ why, check_record r = inl why →
          why ≠ MissingField
          ∧ (why = BadNumber → (qty ≤ 0)%Z ∨ fle price fzero = true).
Proof.
  intros (line & Hline & Hparse)%parse_transactions_elem.
  apply parse_line_Some in Hparse as (_ & Hbar & tid & date & pid & name & quantity
    & unit_price & cid & region & qty & price & Hparts & _ & _ & ->).
  set (r := <["UnitPrice" := VFloat price]> _).
  assert (Hkeys : ∀ k, is_Some (r !! k) ↔ k ∈ EXPECTED_HEADERS).
  { intros k. unfold r, EXPECTED_HEADERS.
    cbn [zip zip_with fmap list_fmap list_to_map foldr uncurry].
    rewrite !lookup_insert_is_Some', lookup_empty, is_Some_alt.
    rewrite !elem_of_cons, elem_of_nil. naive_solver. }
  assert (Hq : r !! "Quantity" = Some (VInt qty)) by done.
  assert (Hp : r !! "UnitPrice" = Some (VFloat price)) by done.
  split_and!.
  - exists line. split_and!; [done..|].
    apply (f_equal length) in Hparts. by rewrite length_fmap in Hparts.
  - done.
  - intros k Hk. rewrite !elem_of_cons, elem_of_nil in Hk.
    destruct Hk as [->|[->|[->|[->|[->|[->|[]]]]]]]; by eexists.
  - exists qty, price. split_and!; [done..|].
    intros why Hwhy. apply check_record_first_failing in Hwhy as [Hfails _].
    split.
    + intros ->. cbn [rule_fails] in Hfails. destruct Hfails as (k & Hk & Hnone).
      apply Hkeys in Hk. rewrite Hnone in Hk. by destruct Hk.
    + intros ->. cbn [rule_fails] in Hfails.
      destruct (Z.leb_spec qty 0) as [Hle|Hgt]; [by left|].
      destruct (fle price fzero) eqn:Hfle; [by right|].
      exfalso. apply Hfails. exists qty, price. rewrite Hq, Hp. done.
Qed.

(** X14.  [parse_transactions] works line by line and keeps the order: the rows
    of two batches are those of the first followed by those of the second,
    there are never more rows than lines, and an empty line, a line without
    a pipe and a line that does not split into eight fields give no row. *)
Theorem parse_transactions_drops_malformed_lines
    {F : Type} {PF : PyFloat F} (before after : list string) :
  parse_transactions (before ++ after)
  = parse_transactions before ++ parse_transactions (F := F) after
  ∧ length (parse_transactions (F := F) (before ++ after)) ≤ length (before ++ after)
  ∧ ∀ line,
      (line = "" ∨ PyStr.contains "|" line = false
       ∨ length (PyStr.split "|" line) ≠ 8) →
      parse_transactions (F := F) (before ++ line :: after)
      = parse_transactions (before ++ after).
Proof.
  unfold parse_transactions. split_and!.
  - apply omap_app.
  - apply parse_transactions_length.
  - intros line Hbad. rewrite !omap_app. f_equal. cbn.
    assert (Hnone : parse_line (F := F) line = None).
    { destruct Hbad as [->|[Hbar|Hlen]]; [done| |by apply parse_line_wrong_count].
      unfold parse_line. rewrite Hbar. by destruct (String.eqb line ""). }
    by rewrite Hnone.
Qed.

(** ** The two sanitizers *)

Lemma contains_char (c : ascii) (s : string) :
  PyStr.contains (String c "") s = PyStr.mem_char c s.
Proof.
  induction s as [|d r IH]; [done|]. cbn [PyStr.contains PyStr.startswith PyStr.mem_char].
  rewrite IH, andb_true_r. done.
Qed.

Lemma drop_prefix_char (c : ascii) (s : string) :
  PyReplace.drop_prefix (String c "") s
  = match s with
    | String d r => if Ascii.eqb c d then Some r else None
    | EmptyString => None
    end.
Proof. by destruct s. Qed.

Lemma drop_prefix_startswith (p s : string) :
  PyStr.startswith p s = bool_decide (is_Some (PyReplace.drop_prefix p s)).
Proof.
  revert s. induction p as [|a p IH]; intros [|b s]; cbn; try done.
  destruct (Ascii.eqb a b); cbn; [apply IH|done].
Qed.

Lemma drop_prefix_length (p s rest : string) :
  PyReplace.drop_prefix p s = Some rest →
  String.length s = String.length p + String.length rest.
Proof.
  revert s. induction p as [|a p IH]; intros [|b s]; cbn; try done.
  - by intros [= <-].
  - by intros [= <-].
  - destruct (Ascii.eqb a b); [|done]. intros H%IH. lia.
Qed.

Lemma mem_char_app (c : ascii) (a b : string) :
  PyStr.mem_char c (a +:+ b) = PyStr.mem_char c a || PyStr.mem_char c b.
Proof.
  induction a as [|d a IH]; [done|].
  change (String d a +:+ b) with (String d (a +:+ b)). cbn. rewrite IH.
  by rewrite orb_assoc.
Qed.

Lemma drop_prefix_mem_char (c : ascii) (p s rest : string) :
  PyReplace.drop_prefix p s = Some rest →
  PyStr.mem_char c rest = true → PyStr.mem_char c s = true.
Proof.
  revert s. induction p as [|a p IH]; intros [|b s]; cbn; try done.
  - by intros [= <-].
  - by intros [= <-].
  - destruct (Ascii.eqb a b); [|done]. intros H Hm.
    rewrite (IH _ H Hm). apply orb_true_r.
Qed.

(** A replacement brings in no character that is neither in the text nor
    in what is put in. *)
Lemma replace_fuel_mem_char (c : ascii) (fuel : nat) (old new s : string) :
  PyStr.mem_char c (PyReplace.replace_fuel fuel old new s) = true →
  PyStr.mem_char c new = true ∨ PyStr.mem_char c s = true.
Proof.
  revert s. induction fuel as [|fuel IH]; intros s; cbn [PyReplace.replace_fuel]; [auto|].
  destruct (PyReplace.drop_prefix old s) as [rest|] eqn:E.
  - rewrite mem_char_app. intros [?|H]%orb_true_iff; [auto|].
    destruct (IH _ H) as [?|?]; [auto|]. right. by eapply drop_prefix_mem_char.
  - destruct s as [|d r]; [done|]. cbn [PyStr.mem_char].
    intros [Hd|H]%orb_true_iff; [right; by rewrite Hd|].
    destruct (IH _ H) as [?|Hr]; [auto|]. right. rewrite Hr. apply orb_true_r.
Qed.

(** Replacing a character by a text without it leaves none of it. *)
Lemma replace_fuel_char_gone (c : ascii) (fuel : nat) (new s : string) :
  String.length s < fuel → PyStr.mem_char c new = false →
  PyStr.mem_char c (PyReplace.replace_fuel fuel (String c "") new s) = false.
Proof.
  intros Hfuel Hnew. revert s Hfuel.
  induction fuel as [|fuel IH]; intros s Hfuel; [lia|].
  cbn [PyReplace.replace_fuel]. rewrite drop_prefix_char.
  destruct s as [|d r]; [done|]. cbn in Hfuel.
  destruct (Ascii.eqb c d) eqn:E.
  - rewrite mem_char_app, Hnew. cbn. apply IH. lia.
  - cbn [PyStr.mem_char]. rewrite E. cbn. apply IH. lia.
Qed.

Lemma lstrip_mem_char (c : ascii) (s : string) :
  PyStr.mem_char c (PyStr.lstrip s) = true → PyStr.mem_char c s = true.
Proof.
  induction s as [|d r IH]; [done|]. cbn [PyStr.lstrip].
  destruct (PyStr.is_space d); [|done]. intros H%IH. cbn. rewrite H. apply orb_true_r.
Qed.

Lemma rstrip_mem_char (c : ascii) (s : string) :
  PyStr.mem_char c (PyStr.rstrip s) = true → PyStr.mem_char c s = true.
Proof.
  induction s as [|d r IH]; [done|]. cbn [PyStr.rstrip].
  destruct (PyStr.rstrip r) as [|e r'] eqn:E.
  - destruct (PyStr.is_space d); [done|]. cbn. rewrite orb_false_r. intros ->. done.
  - cbn [PyStr.mem_char] in *. intros [->|H]%orb_true_iff; [done|].
    rewrite (IH H). apply orb_true_r.
Qed.

Lemma strip_mem_char (c : ascii) (s : string) :
  PyStr.mem_char c (PyStr.strip s) = true → PyStr.mem_char c s = true.
Proof. intros H%rstrip_mem_char%lstrip_mem_char. done. Qed.

Lemma str_length_append (a b : string) :
  String.length (a +:+ b) = String.length a + String.length b.
Proof.
  induction a as [|d a IH]; [done|].
  change (String d a +:+ b) with (String d (a +:+ b)). cbn. by rewrite IH.
Qed.

(** Replacing by something shorter does not lengthen the text, and shortens
    it when there is an occurrence. *)
Lemma replace_fuel_shorter (fuel : nat) (old new s : string) :
  String.length new < String.length old → String.length s < fuel →
  String.length (PyReplace.replace_fuel fuel old new s) ≤ String.length s
  ∧ (PyStr.contains old s = true →
     String.length (PyReplace.replace_fuel fuel old new s) < String.length s).
Proof.
  intros Hlen. revert s. induction fuel as [|fuel IH]; intros s Hfuel; [lia|].
  cbn [PyReplace.replace_fuel].
  destruct (PyReplace.drop_prefix old s) as [rest|] eqn:E.
  - apply drop_prefix_length in E as Hs.
    destruct (IH rest ltac:(lia)) as [Hle _].
    rewrite str_length_append. split; [lia|]. intros _. lia.
  - destruct s as [|d r].
    + cbn. split; [done|]. rewrite drop_prefix_startswith, E.
      rewrite bool_decide_eq_false_2 by (by intros []). done.
    + cbn in Hfuel. destruct (IH r ltac:(lia)) as [Hle Hlt].
      cbn [String.length]. split; [lia|].
      cbn [PyStr.contains]. rewrite drop_prefix_startswith, E.
      rewrite bool_decide_eq_false_2 by (by intros []). cbn [orb].
      intros H%Hlt. lia.
Qed.

Lemma replace_while_done (fuel : nat) (old new s : string) :
  String.length new < String.length old → String.length s ≤ fuel →
  PyStr.contains old (PyReplace.replace_while fuel old new s) = false.
Proof.
  intros Hlen. revert s. induction fuel as [|fuel IH]; intros s Hfuel.
  - destruct s; [|cbn in Hfuel; lia]. cbn [PyReplace.replace_while].
    destruct old; [cbn in Hlen; lia|done].
  - cbn [PyReplace.replace_while].
    destruct (PyStr.contains old s) eqn:E; [|done].
    apply IH. unfold PyReplace.replace.
    destruct (replace_fuel_shorter (S (String.length s)) old new s Hlen ltac:(lia))
      as [_ Hlt].
    specialize (Hlt E). lia.
Qed.

Lemma replace_while_mem_char (c : ascii) (fuel : nat) (old new s : string) :
  PyStr.mem_char c (PyReplace.replace_while fuel old new s) = true →
  PyStr.mem_char c new = true ∨ PyStr.mem_char c s = true.
Proof.
  revert s. induction fuel as [|fuel IH]; intros s; cbn [PyReplace.replace_while]; [auto|].
  destruct (PyStr.contains old s); [|auto].
  intros [?|H]%IH; [auto|]. by apply replace_fuel_mem_char in H.
Qed.

(** X15.  A cleaned product name holds no comma and no two spaces in a row; it
    has no character that the raw name did not have, the space apart; and
    [None] gives the empty name. *)
Theorem clean_product_name_has_no_comma_or_double_space (name : string) :
  PyStr.contains "," (_clean_product_name (Some name)) = false
  ∧ PyStr.contains "  " (_clean_product_name (Some name)) = false
  ∧ (∀ c, PyStr.mem_char c (_clean_product_name (Some name)) = true →
          c = " "%char ∨ PyStr.mem_char c name = true)
  ∧ _clean_product_name None = "".
Proof.
  unfold _clean_product_name.
  set (cleaned := PyStr.strip (PyReplace.replace "," " " name)).
  assert (Hchars : ∀ c,
            PyStr.mem_char c (PyReplace.replace_while (String.length cleaned) "  " " " cleaned)
            = true →
            c = " "%char ∨ PyStr.mem_char c (PyReplace.replace "," " " name) = true).
  { intros c [H|H]%replace_while_mem_char.
    - left. cbn in H. rewrite orb_false_r in H. by apply Ascii.eqb_eq in H.
    - right. by apply strip_mem_char. }
  split_and!.
  - rewrite contains_char.
    destruct (PyStr.mem_char "," _) eqn:E; [|done]. exfalso.
    destruct (Hchars _ E) as [?|H]; [done|].
    unfold PyReplace.replace in H.
    rewrite replace_fuel_char_gone in H; [done|lia|done].
  - apply replace_while_done; [cbn; lia|done].
  - intros c [?|H]%Hchars; [auto|].
    apply replace_fuel_mem_char in H as [H|?]; [|auto].
    left. cbn in H. rewrite orb_false_r in H. by apply Ascii.eqb_eq in H.
  - done.
Qed.

Lemma sanitize_steps (s : string) :
  _sanitize_number (Some s)
  = PyReplace.replace " " ""
      (PyReplace.replace (String (PyStr.chr 194) (String (PyStr.chr 163) "")) ""
         (PyReplace.replace
            (String (PyStr.chr 226) (String (PyStr.chr 130) (String (PyStr.chr 172) ""))) ""
            (PyReplace.replace "$" "" (PyReplace.replace "," "" (PyStr.strip s))))).
Proof. done. Qed.

(** X16.  A sanitized number holds no comma, no dollar sign and no space, and no
    character that the raw text did not have; [None] gives the empty
    text. *)
Theorem sanitize_number_strips_separators (value : string) :
  PyStr.contains "," (_sanitize_number (Some value)) = false
  ∧ PyStr.contains "$" (_sanitize_number (Some value)) = false
  ∧ PyStr.contains " " (_sanitize_number (Some value)) = false
  ∧ (∀ c, PyStr.mem_char c (_sanitize_number (Some value)) = true →
          PyStr.mem_char c value = true)
  ∧ _sanitize_number None = "".
Proof.
  rewrite sanitize_steps.
  assert (Hkeep : ∀ c old s, PyStr.mem_char c (PyReplace.replace old "" s) = true →
                             PyStr.mem_char c s = true).
  { intros c old s [H|H]%replace_fuel_mem_char; done. }
  assert (Hgone : ∀ c s, PyStr.mem_char c (PyReplace.replace (String c "") "" s) = false).
  { intros c s. unfold PyReplace.replace. apply replace_fuel_char_gone; [lia|done]. }
  split_and!.
  - rewrite contains_char.
    destruct (PyStr.mem_char "," _) eqn:E; [|done].
    do 4 apply Hkeep in E. by rewrite Hgone in E.
  - rewrite contains_char.
    destruct (PyStr.mem_char "$" _) eqn:E; [|done].
    do 3 apply Hkeep in E. by rewrite Hgone in E.
  - rewrite contains_char. apply Hgone.
  - intros c H. do 5 apply Hkeep in H. by apply strip_mem_char.
  - done.
Qed.

(** ** The catalog mapping *)

Section Catalog.
Context {F : Type} {PF : PyFloat F}.

Lemma create_product_mapping_fold (m : catalog F) (ps : list (record F)) (n : Z) :
  foldl (λ mapping p,
           match int_key (get p "id" VNone) with
           | Some pid => <[pid := product_info p]> mapping
           | None => mapping
           end) m ps !! n
  = match last_with_id ps n with
    | Some p => Some (product_info p)
    | None => m !! n
    end.
Proof.
  unfold last_with_id. revert m. induction ps as [|p r IH]; intros m; [done|].
  cbn [foldl List.filter]. rewrite IH.
  destruct (decide (int_key (get p "id" VNone) = Some n)) as [E|E].
  - rewrite bool_decide_eq_true_2 by done. rewrite E.
    destruct (List.filter _ r) as [|q l] eqn:Hf.
    + cbn. by rewrite lookup_insert_eq.
    + change (last (p :: q :: l)) with (last (q :: l)).
      destruct (last (q :: l)) eqn:El; [done|].
      by apply last_None in El.
  - rewrite bool_decide_eq_false_2 by done.
    destruct (last (List.filter _ r)); [done|].
    destruct (int_key (get p "id" VNone)) as [pid|]; [|done].
    rewrite lookup_insert_ne; [done|]. congruence.
Qed.

Lemma last_with_id_Some (ps : list (record F)) (n : Z) (p : record F) :
  last_with_id ps n = Some p → p ∈ ps ∧ int_key (get p "id" VNone) = Some n.
Proof.
  unfold last_with_id. intros H.
  assert (Hin : p ∈ List.filter (λ p, bool_decide (int_key (get p "id" VNone) = Some n)) ps).
  { apply last_Some in H as [l ->]. apply elem_of_app. right. left. }
  apply bfilter_elem in Hin as [? Hb]. split; [done|]. by apply bool_decide_eq_true in Hb.
Qed.

Lemma last_with_id_None (ps : list (record F)) (n : Z) :
  last_with_id ps n = None ↔ ∀ p, p ∈ ps → int_key (get p "id" VNone) ≠ Some n.
Proof.
  unfold last_with_id. rewrite last_None. split.
  - intros Hnil p Hp Hid.
    assert (Hin : p ∈ List.filter (λ p, bool_decide (int_key (get p "id" VNone) = Some n)) ps).
    { apply bfilter_elem. split; [done|]. by apply bool_decide_eq_true_2. }
    rewrite Hnil in Hin. by apply elem_of_nil in Hin.
  - intros Hno. destruct (List.filter _ ps) as [|q l] eqn:E; [done|]. exfalso.
    assert (Hin : q ∈ List.filter (λ p, bool_decide (int_key (get p "id" VNone) = Some n)) ps)
      by (rewrite E; left).
    apply bfilter_elem in Hin as [Hq Hb]. apply bool_decide_eq_true in Hb.
    by apply (Hno q).
Qed.

End Catalog.

(** X17.  The entry of [create_product_mapping] for an id is made from the last
    product of the list that has this id, so a later duplicate overwrites an
    earlier one; an id is a key exactly when some product has it as an
    [int] (or as a [bool], which Python takes for the key 1 or 0), so
    products with another kind of [id] are passed over; and an entry has the four keys title,
    category, brand and rating, taken from the product, and no others, so
    not the price. *)
Theorem create_product_mapping_last_product_wins
    {F : Type} {PF : PyFloat F} (api_products : list (record F)) (n : Z) :
  let mapping := create_product_mapping api_products in
  mapping !! n = product_info <$> last_with_id api_products n
  ∧ (is_Some (mapping !! n) ↔
     ∃ p, p ∈ api_products ∧ int_key (get p "id" VNone) = Some n)
  ∧ (∀ before p after,
       api_products = before ++ p :: after →
       int_key (get p "id" VNone) = Some n →
       (∀ q, q ∈ after → int_key (get q "id" VNone) ≠ Some n) →
       mapping !! n = Some (product_info p))
  ∧ ∀ info, mapping !! n = Some info →
      (∀ k, is_Some (info !! k) ↔ k ∈ ["title"; "category"; "brand"; "rating"])
      ∧ ∃ p, p ∈ api_products
             ∧ ∀ k, k ∈ ["title"; "category"; "brand"; "rating"] →
                    info !! k = Some (get p k VNone).
Proof.
  intros mapping.
  assert (Hlook : mapping !! n = product_info <$> last_with_id api_products n).
  { unfold mapping, create_product_mapping. rewrite create_product_mapping_fold.
    by destruct (last_with_id api_products n). }
  split_and!.
  - done.
  - rewrite Hlook, fmap_is_Some. split.
    + intros [p Hp%last_with_id_Some]. by exists p.
    + intros (p & Hp & Hid). destruct (last_with_id api_products n) eqn:E; [done|].
      exfalso. rewrite last_with_id_None in E. by apply (E p Hp).
  - intros before p after -> Hid Hafter. rewrite Hlook.
    unfold last_with_id. rewrite List.filter_app. cbn [List.filter].
    rewrite bool_decide_eq_true_2 by done.
    assert (Hnil : List.filter (λ p, bool_decide (int_key (get p "id" VNone) = Some n)) after
                   = []).
    { apply last_None. by apply (last_with_id_None after n). }
    rewrite Hnil. by rewrite last_snoc.
  - intros info Hinfo. rewrite Hlook in Hinfo.
    destruct (last_with_id api_products n) as [p|] eqn:E; [|done].
    cbn in Hinfo. simplify_eq. apply last_with_id_Some in E as [Hp _]. split.
    + intros k. unfold product_info. cbn [list_to_map foldr uncurry].
      rewrite !lookup_insert_is_Some, lookup_empty, is_Some_alt.
      rewrite !elem_of_cons, elem_of_nil. naive_solver.
    + exists p. split; [done|]. intros k Hk.
      rewrite !elem_of_cons, elem_of_nil in Hk.
      destruct Hk as [->|[->|[->|[->|[]]]]]; done.
Qed.

(** ** Writing the side-file *)

Section SideFile.
Context {F : Type} {PF : PyFloat F}.



Lemma write_rows_app (before rest : list (record F)) (written : string) :
  write_rows (before ++ rest) written
  = if (write_rows before written).2
    then write_rows rest (write_rows before written).1
    else write_rows before written.
Proof.
  revert written. induction before as [|t r IH]; intros written; [done|].
  cbn [app write_rows]. destruct (enriched_row t); [apply IH|done].
Qed.

Lemma enriched_row_None (t : record F) :
  enriched_row t = None ↔
  (PyStr.strip (py_str (get t "Quantity" (VStr ""))) ≠ ""
   ∧ py_int (get t "Quantity" (VStr "")) = None)
  ∨ (PyStr.strip (py_str (get t "UnitPrice" (VStr ""))) ≠ ""
     ∧ py_float (get t "UnitPrice" (VStr "")) = None).
Proof.
  unfold enriched_row.
  destruct (String.eqb_spec (PyStr.strip (py_str (get t "Quantity" (VStr "")))) "") as [Eq|Eq];
    destruct (String.eqb_spec (PyStr.strip (py_str (get t "UnitPrice" (VStr "")))) "") as [Ep|Ep];
    destruct (py_int (get t "Quantity" (VStr ""))) as [q|];
    destruct (py_float (get t "UnitPrice" (VStr ""))) as [p|];
    cbn; naive_solver.
Qed.



End SideFile.


(** X19.  [save_enriched_data] stops at the first record whose Quantity is not
    blank and does not convert to an [int], or whose UnitPrice is not blank
    and does not convert to a [float]: the exception leaves the function,
    the file holds the header and the rows before that record only, and
    [enrich_sales_data], which catches the exception, still returns every
    record. *)
Theorem save_enriched_data_stops_at_unprintable_row
    {F : Type} {PF : PyFloat F} (fs : gmap string string)
    (before after : list (record F)) (t : record F) (filename : string) :
  (PyStr.strip (py_str (get t "Quantity" (VStr ""))) ≠ ""
   ∧ py_int (get t "Quantity" (VStr "")) = None)
  ∨ (PyStr.strip (py_str (get t "UnitPrice" (VStr ""))) ≠ ""
     ∧ py_float (get t "UnitPrice" (VStr "")) = None) →
  (save_enriched_data fs before filename).2 = true →
  save_enriched_data fs (before ++ t :: after) filename
  = ((save_enriched_data fs before filename).1, false)
  ∧ ∀ mapping ts,
      map (enrich_record mapping) ts = before ++ t :: after →
      enrich_sales_data fs ts mapping
      = ((save_enriched_data fs before "data/enriched_sales_data.txt").1,
         before ++ t :: after).
Proof.
  intros Hbad%enriched_row_None.
  assert (Hstop : ∀ f, (save_enriched_data fs before f).2 = true →
            save_enriched_data fs (before ++ t :: after) f
            = ((save_enriched_data fs before f).1, false)).
  { intros f. unfold save_enriched_data. rewrite write_rows_app.
    destruct (write_rows before _) as [text ok]. cbn [fst snd].
    intros ->. cbn [write_rows]. by rewrite Hbad. }
  intros Hok. split; [by apply Hstop|].
  intros mapping ts Hts. unfold enrich_sales_data. rewrite Hts.
  rewrite Hstop; [done|].
  unfold save_enriched_data in *. by destruct (write_rows before _).
Qed.

(** ** Reading the ledger, in general *)





(** ** The report, section by section *)

Lemma join_LF_cons (l : string) (ls : list string) :
  ∃ rest, PyStr.join PyStr.LF (l :: ls) +:+ PyStr.LF = l +:+ rest.
Proof.
  destruct ls as [|x r]; cbn [PyStr.join].
  - by exists PyStr.LF.
  - exists (PyStr.LF +:+ PyStr.join PyStr.LF (x :: r) +:+ PyStr.LF).
    by rewrite !append_assoc.
Qed.

(** X21.  The report has its eight blocks in the order of [REPORT_TITLES], each
    title on a line of its own, whatever the records are, and it opens with
    a rule of 44 equals signs followed by the first title.  Its tables have
    one line per row of the analysis they print: beside the 32 fixed lines
    there are two lines per region, one per top product, one per customer
    up to five, one per day, the low performers with their two heading lines
    or the one line saying that there are none, and the distinct labels of
    the products without a match under their heading or the one line saying
    that all were enriched. *)
Theorem report_has_its_eight_sections_in_order
    {F : Type} {PF : PyFloat F} (env : os_env) (txns etxns : list (record F))
    (currency_symbol : string) (low_threshold : Z) :
  let lines := report_lines env txns etxns currency_symbol low_threshold in
  REPORT_TITLES `sublist_of` lines
  ∧ take 2 lines = [PyStr.repeat_char "=" 44; "SALES ANALYTICS REPORT"]
  ∧ (∃ rest, report_text env txns etxns currency_symbol low_threshold
             = PyStr.repeat_char "=" 44 +:+ rest)
  ∧ length lines
    = 32 + 2 * length (region_wise_sales txns)
      + length (top_selling_products txns 5)
      + length (customer_analysis txns) `min` 5
      + length (daily_sales_trend txns)
      + match low_performing_products txns low_threshold with
        | [] => 1
        | low => 2 + length low
        end
      + match not_enriched_labels etxns with
        | [] => 1
        | labels => 1 + size (list_to_set labels : gset string)
        end.
Proof.
  intros lines. split_and!.
  - unfold lines, report_lines, REPORT_TITLES. cbv zeta. cbn [app].
    repeat next_title.
  - done.
  - unfold report_text. fold lines. unfold lines, report_lines. cbv zeta. cbn [app].
    apply join_LF_cons.
  - unfold lines, report_lines. cbv zeta.
    fold (not_enriched_labels etxns).
    rewrite !length_app, !length_fmap, !length_imap, length_take. cbn [length].
    assert (Hlow : length (match low_performing_products txns low_threshold with
                           | [] => ["Low Performing Products: None"]
                           | _ :: _ =>
                               ["Low Performing Products (< threshold)";
                                PyStr.ljust 30 "Product" +:+ PyStr.rjust 6 "Qty" +:+ "  " +:+
                                  PyStr.rjust 15 "Revenue"]
                               ++ map (λ '(name, qty, rev),
                                    PyStr.ljust 30 name +:+
                                      PyStr.rjust 6 (PyStr.str_of_int (_safe_int (VInt qty)))
                                      +:+ "  " +:+
                                      PyStr.rjust 15
                                        (_fmt_money (_safe_float (VFloat rev)) currency_symbol))
                                   (low_performing_products txns low_threshold)
                           end)
                   = match low_performing_products txns low_threshold with
                     | [] => 1
                     | low => 2 + length low
                     end).
    { destruct (low_performing_products txns low_threshold); [done|].
      by rewrite length_app, length_fmap. }
    rewrite Hlow.
    assert (Hne : length (match not_enriched_labels etxns with
                          | [] => ["All products enriched successfully (or enrichment not attempted)."]
                          | _ :: _ =>
                              "Products not enriched:"
                              :: map (λ label, " - " +:+ label)
                                   (stable_sort PyStr.ltb
                                      (elements (list_to_set (not_enriched_labels etxns)
                                                 : gset string)))
                          end)
                  = match not_enriched_labels etxns with
                    | [] => 1
                    | labels => 1 + size (list_to_set labels : gset string)
                    end).
    { destruct (not_enriched_labels etxns); [done|].
      cbn [length]. by rewrite length_fmap, stable_sort_length. }
    rewrite Hne. clear Hlow Hne.
    destruct (low_performing_products txns low_threshold);
      destruct (not_enriched_labels etxns); cbn [length]; lia.
Qed.

Lemma no_dated_no_trend {F : Type} {PF : PyFloat F} (txns : list (record F)) :
  (∀ t, t ∈ txns → date_of t = "") →
  List.filter (λ d, negb (String.eqb d "")) (map date_of txns) = []
  ∧ find_peak_sales_day txns = None.
Proof.
  intros Hno.
  assert (Hdates : List.filter (λ d, negb (String.eqb d "")) (map date_of txns) = []
                   ∧ dated txns = []).
  { unfold dated. induction txns as [|t r IH]; [done|]. cbn.
    rewrite (Hno t) by left. cbn. apply IH. intros x Hx. apply Hno. by right. }
  destruct Hdates as [Hdates Hdated]. split; [done|].
  unfold find_peak_sales_day. by rewrite daily_sales_trend_table, Hdated.
Qed.

(** X22.  Where the data is missing the report says so instead of failing:
    without a dated record the date range reads "N/A to N/A" and the best
    selling day "N/A"; without any record the count is 0 and the average
    order value is that of 0.0, no division being made; without a low
    performer the line "Low Performing Products: None" stands for the
    table; without enriched records the success rate is that of 0.0; and
    when no label of an unmatched product is left, the report ends with the
    line saying that all products were enriched.  The report on no records
    at all has 34 lines, and a missing enrichment is read as an empty
    one. *)
Theorem report_falls_back_on_missing_data
    {F : Type} {PF : PyFloat F} (env : os_env) (fs : gmap string string)
    (txns etxns : list (record F)) (output_file currency_symbol : string)
    (low_threshold : Z) :
  let lines := report_lines env txns etxns currency_symbol low_threshold in
  ((∀ t, t ∈ txns → date_of t = "") →
     "Date Range: N/A to N/A" ∈ lines ∧ "Best Selling Day: N/A" ∈ lines)
  ∧ (txns = [] →
       "Records Processed: 0" ∈ lines
       ∧ ("Average Order Value: " +:+ _fmt_money fzero currency_symbol) ∈ lines)
  ∧ (low_performing_products txns low_threshold = [] →
       "Low Performing Products: None" ∈ lines)
  ∧ (etxns = [] → ("Success rate: " +:+ fmt_2f fzero +:+ "%") ∈ lines)
  ∧ (not_enriched_labels etxns = [] →
       last lines
       = Some "All products enriched successfully (or enrichment not attempted).")
  ∧ length (report_lines env [] [] currency_symbol low_threshold) = 34
  ∧ generate_sales_report env fs txns None output_file currency_symbol low_threshold
    = generate_sales_report env fs txns (Some []) output_file currency_symbol low_threshold.
Proof.
  intros lines. split_and!.
  - intros Hno. destruct (no_dated_no_trend txns Hno) as (Hdates & Hpeak).
    unfold lines, report_lines. cbv zeta. rewrite Hdates, Hpeak. cbn [app].
    split; find_line.
  - intros ->. unfold lines, report_lines. cbv zeta. cbn [app length Nat.ltb Nat.leb].
    split; find_line.
  - intros Hlow. unfold lines, report_lines. cbv zeta. rewrite Hlow. cbn [app].
    find_line.
  - intros ->. unfold lines, report_lines. cbv zeta. cbn [app length Nat.ltb Nat.leb].
    find_line.
  - intros Hne. unfold lines, report_lines. cbv zeta.
    fold (not_enriched_labels etxns). rewrite Hne. rewrite !app_assoc. apply last_snoc.
  - reflexivity.
  - reflexivity.
Qed.

(** ** The numeric product id, there and back *)








(** ** Enrichment against the catalog mapping *)



(** ** Validating twice *)

Lemma rstrip_head (c : ascii) (r : string) :
  PyStr.is_space c = false → PyStr.rstrip (String c r) ≠ "".
Proof.
  intros Hc. cbn [PyStr.rstrip]. destruct (PyStr.rstrip r); [by rewrite Hc|done].
Qed.

Lemma strip_head (c : ascii) (r : string) :
  PyStr.is_space c = false → PyStr.strip (String c r) ≠ "".
Proof.
  intros Hc. unfold PyStr.strip. cbn [PyStr.lstrip]. rewrite Hc. by apply rstrip_head.
Qed.

Lemma str_of_uint_nonblank (d : Decimal.uint) :
  PyStr.strip (DecimalString.NilZero.string_of_uint d) ≠ "".
Proof. destruct d; by apply strip_head. Qed.

Lemma str_of_int_nonblank (n : Z) : PyStr.strip (PyStr.str_of_int n) ≠ "".
Proof.
  unfold PyStr.str_of_int. destruct n as [|p|p]; cbn [Z.to_int DecimalString.NilZero.string_of_int].
  - by apply strip_head.
  - apply str_of_uint_nonblank.
  - by apply strip_head.
Qed.

Lemma bfilter_all {X : Type} (p : X → bool) (l : list X) :
  (∀ x, x ∈ l → p x = true) → List.filter p l = l.
Proof.
  induction l as [|x r IH]; intros H; [done|]. cbn.
  rewrite (H x) by left. f_equal. apply IH. intros y Hy. apply H. by right.
Qed.

Section Twice.
Context {F : Type} {PF : PyFloat F}.
Implicit Types (t r : record F).

(** A kept record, its [_amount] taken off as on return, is kept again and
    as it was. *)
Lemma check_record_again t r :
  check_record t = inr r →
  (∀ p, r !! "UnitPrice" = Some (VFloat p) → PyStr.strip (float_str p) ≠ "") →
  check_record (delete "_amount" r) = inr r.
Proof.
  intros Hchk Hprint.
  pose proof (check_record_cases t) as Hrules. rewrite Hchk in Hrules.
  destruct (check_record_kept _ _ Hchk) as (qty & price & Hq & Hp & -> & Hpos & Hprice).
  rewrite delete_insert_eq.
  set (r := delete "_amount"
              (<["UnitPrice" := VFloat price]> (<["Quantity" := VInt qty]> t))).
  assert (Hkeep : ∀ k, k ≠ "Quantity" → k ≠ "UnitPrice" → k ≠ "_amount" →
                       r !! k = t !! k) by (intros; by apply field_kept).
  assert (Hrq : r !! "Quantity" = Some (VInt qty)).
  { unfold r. rewrite lookup_delete_ne by done.
    rewrite lookup_insert_ne by done. by rewrite lookup_insert_eq. }
  assert (Hrp : r !! "UnitPrice" = Some (VFloat price)).
  { unfold r. rewrite lookup_delete_ne by done. by rewrite lookup_insert_eq. }
  assert (Hfloat : PyStr.strip (float_str price) ≠ "").
  { apply Hprint. rewrite lookup_insert_ne by done. by rewrite lookup_insert_eq. }
  assert (Hheaders : ∀ k, k ∈ EXPECTED_HEADERS →
            k = "Quantity" ∨ k = "UnitPrice"
            ∨ (k ≠ "Quantity" ∧ k ≠ "UnitPrice" ∧ k ≠ "_amount")).
  { intros k Hk. unfold EXPECTED_HEADERS in Hk.
    rewrite !elem_of_cons, elem_of_nil in Hk.
    destruct Hk as [->|[->|[->|[->|[->|[->|[->|[->|[]]]]]]]]]; auto. }
  assert (Hpass : ∀ why, ¬ rule_fails why r).
  { intros [] Hf; cbn [rule_fails] in Hf.
    - destruct Hf as (k & Hk & Hnone).
      destruct (Hheaders k Hk) as [->|[->|(? & ? & ?)]]; [congruence..|].
      rewrite Hkeep in Hnone by done. apply (Hrules MissingField). by exists k.
    - destruct Hf as (k & Hk & Hblank).
      destruct (Hheaders k Hk) as [->|[->|(? & ? & ?)]].
      + unfold field, get in Hblank. rewrite Hrq in Hblank.
        by apply (str_of_int_nonblank qty).
      + unfold field, get in Hblank. rewrite Hrp in Hblank. done.
      + apply (Hrules BlankField). exists k. split; [done|].
        unfold field, get in *. by rewrite <- Hkeep.
    - apply Hf. exists qty, price. rewrite Hrq, Hrp. done.
    - apply (Hrules BadTransactionID). cbn [rule_fails].
      unfold get in *. by rewrite <- Hkeep.
    - apply (Hrules BadProductID). cbn [rule_fails].
      unfold get in *. by rewrite <- Hkeep.
    - apply (Hrules BadCustomerID). cbn [rule_fails].
      unfold get in *. by rewrite <- Hkeep. }
  pose proof (check_record_cases r) as Hagain.
  destruct (check_record r) as [why|r'] eqn:E.
  { destruct Hagain as [Hf _]. by destruct (Hpass why). }
  destruct (check_record_kept _ _ E) as (qty' & price' & Hq' & Hp' & -> & _).
  rewrite Hrq in Hq'. rewrite Hrp in Hp'. cbn in Hq', Hp'. simplify_eq.
  f_equal. rewrite (insert_id r "Quantity") by done.
  rewrite (insert_id r "UnitPrice") by done.
  unfold r. by rewrite insert_delete_eq.
Qed.

Lemma accepted_again (l : list (record F)) :
  (∀ r, r ∈ l → ∃ t, check_record t = inr r) →
  (∀ r p, r ∈ l → r !! "UnitPrice" = Some (VFloat p) → PyStr.strip (float_str p) ≠ "") →
  accepted (map (delete "_amount") l) = l
  ∧ List.filter is_rejected (map (delete "_amount") l) = [].
Proof.
  induction l as [|r l IH]; intros Hkept Hprint; [done|].
  destruct (Hkept r ltac:(left)) as [t Ht].
  assert (Hr : check_record (delete "_amount" r) = inr r).
  { apply (check_record_again t); [done|]. intros p. apply Hprint. left. }
  destruct IH as [IH1 IH2].
  { intros x Hx. apply Hkept. by right. }
  { intros x p Hx. apply Hprint. by right. }
  unfold accepted, is_rejected in *. cbn. rewrite Hr. cbn. by rewrite IH1, IH2.
Qed.

End Twice.

(** X25.  Validating again what [validate_and_filter] returned, with the same
    filters, changes nothing: every record comes back as it is, none is
    counted invalid and none is filtered.  (The UnitPrice of a returned
    record is a [float]; that its [str] is not blank, as the blank-field
    test reads it, holds of every Python float.) *)
Theorem validate_and_filter_twice
    {F : Type} {PF : PyFloat F} (ts : list (record F))
    (region : option string) (min_amount max_amount : option F) :
  let out := (validate_and_filter ts region min_amount max_amount).1.1 in
  (∀ r p, r ∈ out → r !! "UnitPrice" = Some (VFloat p) →
          PyStr.strip (float_str p) ≠ "") →
  validate_and_filter out region min_amount max_amount
  = (out, 0, {| total_input := length out; invalid := 0; filtered_by_region := 0;
                filtered_by_amount := 0; final_count := length out |}).
Proof.
  intros out.
  assert (Hout : out = (validate_and_filter ts region min_amount max_amount).1.1) by done.
  revert Hout. generalize out. clear out. intros out.
  unfold validate_and_filter at 1.
  rewrite validate_loop_spec. cbn [fst snd]. rewrite app_nil_l.
  intros ->. unfold validate_and_filter.
  set (by_region := match region with
                    | Some (String c g) =>
                        List.filter (λ r, String.eqb (field r "Region") (String c g))
                                    (accepted ts)
                    | _ => accepted ts
                    end).
  set (by_min := match min_amount with
                 | Some m => List.filter (λ r, fle m (amount_of r)) by_region
                 | None => by_region
                 end).
  set (by_max := match max_amount with
                 | Some m => List.filter (λ r, fle (amount_of r) m) by_min
                 | None => by_min
                 end).
  intros Hprint.
  assert (Hmax : ∀ r, r ∈ by_max →
            r ∈ by_min ∧ ∀ m, max_amount = Some m → fle (amount_of r) m = true).
  { unfold by_max. destruct max_amount as [m|]; [|done].
    intros r [? ?]%bfilter_elem. split; [done|]. by intros ? [= <-]. }
  assert (Hmin : ∀ r, r ∈ by_min →
            r ∈ by_region ∧ ∀ m, min_amount = Some m → fle m (amount_of r) = true).
  { unfold by_min. destruct min_amount as [m|]; [|done].
    intros r [? ?]%bfilter_elem. split; [done|]. by intros ? [= <-]. }
  assert (Hreg : ∀ r, r ∈ by_region →
            r ∈ accepted ts
            ∧ ∀ c g, region = Some (String c g) →
                     String.eqb (field r "Region") (String c g) = true).
  { unfold by_region. destruct region as [[|c g]|]; [done| |done].
    intros r [? ?]%bfilter_elem. split; [done|]. by intros ? ? [= <- <-]. }
  destruct (accepted_again by_max) as [Hacc Hrej].
  { intros r Hr. apply Hmax in Hr as [Hr _]. apply Hmin in Hr as [Hr _].
    apply Hreg in Hr as [Hr _]. apply accepted_elem in Hr as (t & _ & Ht). by exists t. }
  { intros r p Hr Hp. apply (Hprint (delete "_amount" r) p).
    - apply list_elem_of_fmap. by exists r.
    - apply Hmax in Hr as [Hr _]. apply Hmin in Hr as [Hr _].
      apply Hreg in Hr as [Hr _]. apply accepted_elem in Hr as (t & _ & Ht).
      destruct (check_record_kept _ _ Ht) as (q' & p' & _ & _ & -> & _).
      rewrite delete_insert_eq. rewrite lookup_delete_ne by done.
      rewrite lookup_insert_ne in Hp by done. done. }
  rewrite validate_loop_spec. cbn [fst snd]. rewrite app_nil_l, Hacc, Hrej.
  assert (H1 : match region with
               | Some (String c g) =>
                   List.filter (λ r, String.eqb (field r "Region") (String c g)) by_max
               | _ => by_max
               end = by_max).
  { destruct region as [[|c g]|]; [done| |done]. apply bfilter_all.
    intros r Hr. apply Hmax in Hr as [Hr _]. apply Hmin in Hr as [Hr _].
    apply Hreg in Hr as [_ Hr]. by apply Hr. }
  rewrite H1.
  assert (H2 : match min_amount with
               | Some m => List.filter (λ r, fle m (amount_of r)) by_max
               | None => by_max
               end = by_max).
  { destruct min_amount as [m|]; [|done]. apply bfilter_all.
    intros r Hr. apply Hmax in Hr as [Hr _]. apply Hmin in Hr as [_ Hr]. by apply Hr. }
  rewrite H2.
  assert (H3 : match max_amount with
               | Some m => List.filter (λ r, fle (amount_of r) m) by_max
               | None => by_max
               end = by_max).
  { destruct max_amount as [m|]; [|done]. apply bfilter_all.
    intros r Hr. apply Hmax in Hr as [_ Hr]. by apply Hr. }
  rewrite H3. cbn [length]. by rewrite !length_fmap, Nat.sub_diag.
Qed.

(** ** The filter options *)

Section Extremes.
Context {F : Type} {PF : PyFloat F} (O : ordered_floats PF).



End Extremes.


(** ** Counts and totals that bound or add up *)

Lemma size_list_to_set_le (l : list string) :
  size (list_to_set l : gset string) ≤ length l.
Proof.
  apply submseteq_length, NoDup_submseteq; [apply NoDup_elements|].
  intros x. rewrite elem_of_elements, elem_of_list_to_set. done.
Qed.

Lemma zsum_start (a : Z) (l : list Z) :
  foldl Z.add a l = (a + foldl Z.add 0 l)%Z.
Proof.
  revert a. induction l as [|x r IH]; intros a; cbn [foldl]; [lia|].
  rewrite (IH (a + x)%Z), (IH (0 + x)%Z). lia.
Qed.

Lemma zsum_perm (l1 l2 : list Z) :
  l1 ≡ₚ l2 → foldl Z.add 0%Z l1 = foldl Z.add 0%Z l2.
Proof.
  induction 1 as [|x l1 l2 _ IH|x y l|l1 l2 l3 _ IH1 _ IH2]; cbn [foldl].
  - done.
  - rewrite (zsum_start (0 + x)), (zsum_start (0 + x) l2). by rewrite IH.
  - f_equal. lia.
  - by etrans.
Qed.

(** The weights of the groups add up to the weight of the whole list. *)
Lemma group_weights_sum {T : Type} (key : T → string) (q : T → Z)
    (ts : list T) (ks : list string) :
  NoDup ks → (∀ t, t ∈ ts → key t ∈ ks) →
  foldl Z.add 0%Z (map (λ k, foldl Z.add 0%Z (map q (group key k ts))) ks)
  = foldl Z.add 0%Z (map q ts).
Proof.
  intros Hnd. induction ts as [|t r IH]; intros Hall.
  - cbn. clear Hnd Hall. induction ks as [|k ks IH]; [done|]. cbn [map foldl].
    by rewrite zsum_start, IH.
  - assert (Hsplit : ∀ l,
      foldl Z.add 0%Z (map (λ k, foldl Z.add 0%Z (map q (group key k (t :: r)))) l)
      = (q t * Z.of_nat (sum_list_with (λ k, if String.eqb (key t) k then 1%nat else 0%nat) l)
         + foldl Z.add 0%Z (map (λ k, foldl Z.add 0%Z (map q (group key k r))) l))%Z).
    { induction l as [|k l IHl]; [cbn; lia|]. cbn [map foldl sum_list_with].
      rewrite zsum_start, IHl.
      rewrite (zsum_start (0 + foldl Z.add 0%Z (map q (group key k r)))).
      unfold group at 1. cbn [List.filter]. fold (group key k r).
      destruct (String.eqb (key t) k); cbn [map foldl].
      - rewrite (zsum_start (0 + q t)). lia.
      - lia. }
    rewrite Hsplit, sum_indicator, IH; try done.
    + cbn [map foldl]. rewrite (zsum_start (0 + q t)). lia.
    + intros t' Ht'. apply Hall. apply elem_of_cons. by right.
    + apply Hall. apply elem_of_cons. by left.
Qed.

(** X27.  A day of [daily_sales_trend] has at least one transaction and
    no more unique customers than transactions; a customer of
    [customer_analysis] bought at least one product and no more distinct
    products than the purchases counted. *)
Theorem distinct_counts_are_bounded
    {F : Type} {PF : PyFloat F} (ts : list (record F)) :
  (∀ d s, (d, s) ∈ daily_sales_trend ts →
     0 < ds_transaction_count s
     ∧ ds_unique_customers s ≤ ds_transaction_count s)
  ∧ (∀ c st, (c, st) ∈ customer_analysis ts →
       0 < length (cs_products_bought st)
       ∧ length (cs_products_bought st) ≤ cs_purchase_count st).
Proof.
  split.
  - intros d s (Hne & (t & Ht & Hd) & ->)%daily_sales_trend_elem.
    cbn [day_stats_of ds_transaction_count ds_unique_customers]. split.
    + apply group_length_pos, list_elem_of_fmap. by exists t.
    + unfold day_customers. etrans; [apply size_list_to_set_le|].
      etrans; [apply List.filter_length_le|]. by rewrite length_fmap.
  - intros c st [Hc ->]%customer_rows_elem.
    cbn [customer_entry cs_products_bought cs_purchase_count].
    rewrite stable_sort_length.
    pose proof (group_length_pos customer_key ts c Hc) as Hpos.
    split.
    + destruct (group customer_key c ts) as [|t g]; [cbn in Hpos; lia|].
      cbn [map list_to_set foldr].
      destruct (elements _) as [|x l] eqn:E; [|cbn; lia].
      apply elements_empty_inv in E. set_solver.
    + etrans; [apply (size_list_to_set_le (map product_key (group customer_key c ts)))|].
      by rewrite length_fmap.
Qed.

(** X28.  The quantities of the product rows add up to the quantity of all
    the records, a Quantity that does not convert counting as 0; so do
    those of [top_selling_products] when it is asked for at least as many
    rows as there are product names. *)
Theorem product_quantities_add_up
    {F : Type} {PF : PyFloat F} (ts : list (record F)) (n : Z) :
  foldl Z.add 0%Z (map (λ x, x.1.2) (product_rows ts))
  = foldl Z.add 0%Z (map quantity_of ts)
  ∧ (length (first_seen (map product_key ts)) ≤ Z.to_nat n →
     foldl Z.add 0%Z (map (λ x, x.1.2) (top_selling_products ts n))
     = foldl Z.add 0%Z (map quantity_of ts))
  ∧ (∀ t, py_int (get t "Quantity" (VInt 0)) = None → quantity_of t = 0%Z).
Proof.
  assert (Hrows : foldl Z.add 0%Z (map (λ x, x.1.2) (product_rows ts))
                  = foldl Z.add 0%Z (map quantity_of ts)).
  { rewrite product_rows_table, <- list_fmap_compose.
    rewrite <- (group_weights_sum product_key quantity_of ts
                  (first_seen (map product_key ts))).
    - done.
    - apply first_seen_NoDup.
    - intros t Ht. apply first_seen_elem, list_elem_of_fmap. by exists t. }
  split_and!; [done| |].
  - intros Hall. rewrite <- Hrows. apply zsum_perm, fmap_Permutation.
    unfold top_selling_products. rewrite take_ge; [apply stable_sort_perm|].
    rewrite stable_sort_length.
    rewrite <- (length_fmap (λ x : string * Z * F, x.1.1)), product_rows_names. lia.
  - intros t Hq. unfold quantity_of. by rewrite Hq.
Qed.

Lemma customer_rows_spent {F : Type} {PF : PyFloat F} (ts : list (record F)) :
  map (λ kv, cs_total_spent kv.2) (customer_analysis ts)
  ≡ₚ map snd (foldl (group_step customer_key (λ v t, fadd v (_amount t)) fzero) [] ts).
Proof.
  rewrite customer_analysis_table, stable_sort_perm, group_fold_table.
  rewrite <- !list_fmap_compose.
  apply reflexive_eq, Forall_fmap_ext_1, Forall_forall. intros c _. cbn.
  symmetry. apply fsum_amounts.
Qed.

Lemma product_rows_revenue {F : Type} {PF : PyFloat F} (ts : list (record F)) :
  map (λ x, x.2) (product_rows ts)
  = map snd (foldl (group_step product_key (λ v t, fadd v (_amount t)) fzero) [] ts).
Proof.
  rewrite product_rows_table, group_fold_table, <- !list_fmap_compose.
  apply Forall_fmap_ext_1, Forall_forall. intros name _. cbn.
  unfold group_revenue. symmetry. apply fsum_amounts.
Qed.

(** X29.  In exact arithmetic the [total_spent] of the customers add up to
    [calculate_total_revenue], and so do the revenues of the products, in
    the ranking of [top_selling_products] when it is asked for at least as
    many rows as there are product names. *)
Theorem customer_and_product_totals_add_up
    {F : Type} {PF : PyFloat F} (E : exact_sum PF) (ts : list (record F)) (n : Z) :
  fsum (map (λ kv, cs_total_spent kv.2) (customer_analysis ts))
  = calculate_total_revenue ts
  ∧ fsum (map (λ x, x.2) (product_rows ts)) = calculate_total_revenue ts
  ∧ (length (first_seen (map product_key ts)) ≤ Z.to_nat n →
     fsum (map (λ x, x.2) (top_selling_products ts n)) = calculate_total_revenue ts).
Proof.
  assert (Htotal : calculate_total_revenue ts = fsum (map _amount ts)).
  { unfold calculate_total_revenue. apply fsum_amounts. }
  assert (Hrows : fsum (map (λ x, x.2) (product_rows ts)) = calculate_total_revenue ts).
  { rewrite product_rows_revenue, (fsum_group_table E), Htotal.
    apply (fadd_zero PF E). }
  split_and!.
  - rewrite (fsum_perm E _ _ (customer_rows_spent ts)), (fsum_group_table E), Htotal.
    apply (fadd_zero PF E).
  - done.
  - intros Hall. rewrite <- Hrows. apply (fsum_perm E), fmap_Permutation.
    unfold top_selling_products. rewrite take_ge; [apply stable_sort_perm|].
    rewrite stable_sort_length.
    rewrite <- (length_fmap (λ x : string * Z * F, x.1.1)), product_rows_names. lia.
Qed.

(** ** The further properties on the sample ledger *)


(** Validating the validated sample ledger again returns it as it is. *)
Lemma validate_and_filter_twice_on_sample :
  (validate_and_filter [Sample.t1; Sample.zero_quantity; Sample.t2] None None None).1.1
  = [Sample.t1; Sample.t2]
  ∧ validate_and_filter [Sample.t1; Sample.t2] None None None
    = ([Sample.t1; Sample.t2], 0,
       {| total_input := 2; invalid := 0; filtered_by_region := 0;
          filtered_by_amount := 0; final_count := 2 |}).
Proof.
  assert (Hout : (validate_and_filter [Sample.t1; Sample.zero_quantity; Sample.t2]
                    None None None).1.1 = [Sample.t1; Sample.t2])
    by (vm_compute; reflexivity).
  split; [exact Hout|].
  pose proof (validate_and_filter_twice
                [Sample.t1; Sample.zero_quantity; Sample.t2] None None None) as H.
  cbv zeta in H. rewrite Hout in H. apply H.
  intros r p Hr Hp.
  apply elem_of_cons in Hr as [->|Hr].
  - vm_compute in Hp. injection Hp as <-. vm_compute. intros H'. discriminate H'.
  - apply list_elem_of_singleton in Hr as ->.
    vm_compute in Hp. injection Hp as <-. vm_compute. intros H'. discriminate H'.
Defined.

(** The regions of the sample ledger, North with 30.00 before South with
    12.50. *)
Lemma region_wise_sales_on_sample :
  ordered_floats Cents.cents
  ∧ map fst (region_wise_sales [Sample.t2; Sample.t1; Sample.t3]) = ["North"; "South"]
  ∧ StronglySorted (λ a b, flt (rs_total_sales a.2) (rs_total_sales b.2) = false)
      (region_wise_sales [Sample.t2; Sample.t1; Sample.t3]).
Proof.
  split; [split; cbv [flt feq Cents.cents]; intros; lia|].
  split; [vm_compute; reflexivity|].
  apply (region_wise_sales_descending_and_stable cents_ordered
           [Sample.t2; Sample.t1; Sample.t3]).
Defined.


(** The customers of the sample ledger, C1 with 30.00 before C2 with
    12.50. *)
Lemma customer_analysis_on_sample :
  ordered_floats Cents.cents
  ∧ map fst (customer_analysis [Sample.t2; Sample.t1; Sample.t3]) = ["C1"; "C2"]
  ∧ StronglySorted (λ a b, flt (cs_total_spent a.2) (cs_total_spent b.2) = false)
      (customer_analysis [Sample.t2; Sample.t1; Sample.t3]).
Proof.
  split; [split; cbv [flt feq Cents.cents]; intros; lia|].
  split; [vm_compute; reflexivity|].
  apply (customer_analysis_descending_and_stable cents_ordered
           [Sample.t2; Sample.t1; Sample.t3]).
Defined.

(** The sample ledger read backwards has the same total and the same
    trend. *)
Lemma reordered_sample_ledger :
  exact_sum Cents.cents
  ∧ [Sample.t1; Sample.t2; Sample.t3] ≡ₚ [Sample.t3; Sample.t2; Sample.t1]
  ∧ calculate_total_revenue [Sample.t1; Sample.t2; Sample.t3]
    = calculate_total_revenue [Sample.t3; Sample.t2; Sample.t1]
  ∧ daily_sales_trend [Sample.t1; Sample.t2; Sample.t3]
    = daily_sales_trend [Sample.t3; Sample.t2; Sample.t1].
Proof.
  split; [split; cbv [fadd fzero Cents.cents]; intros; lia|].
  assert (Hp : [Sample.t1; Sample.t2; Sample.t3] ≡ₚ [Sample.t3; Sample.t2; Sample.t1]).
  { etrans; [apply (Permutation_cons_append [Sample.t2; Sample.t3] Sample.t1)|].
    apply perm_swap. }
  split; [exact Hp|].
  destruct (revenue_and_trend_ignore_the_order_of_records cents_exact_sum _ _ Hp)
    as (Hrev & Htrend & _).
  split; [exact Hrev|exact Htrend].
Defined.

(** A record whose Quantity reads "abc" between two batches of the sample
    ledger adds nothing to the total. *)
Lemma calculate_total_revenue_of_batches_on_sample :
  exact_sum Cents.cents
  ∧ py_int (get (<["Quantity" := VStr "abc"]> Sample.t1) "Quantity" (VInt 0)) = None
  ∧ calculate_total_revenue
      ([Sample.t1; Sample.t2] ++ <["Quantity" := VStr "abc"]> Sample.t1 :: [Sample.t3])
    = calculate_total_revenue ([Sample.t1; Sample.t2] ++ [Sample.t3])
  ∧ calculate_total_revenue ([Sample.t1; Sample.t2] ++ [Sample.t3])
    = fadd (calculate_total_revenue [Sample.t1; Sample.t2])
           (calculate_total_revenue [Sample.t3]).
Proof.
  split; [split; cbv [fadd fzero Cents.cents]; intros; lia|].
  assert (Hbad : py_int (get (<["Quantity" := VStr "abc"]> Sample.t1) "Quantity" (VInt 0))
                 = None) by (vm_compute; reflexivity).
  split; [exact Hbad|].
  destruct (calculate_total_revenue_of_batches cents_exact_sum
              [Sample.t1; Sample.t2] [Sample.t3]) as [Happ Hskip].
  split; [|exact Happ].
  apply Hskip. left. exact Hbad.
Defined.

(** The best seller of the sample ledger heads the ranking of its two
    products. *)
Lemma top_selling_products_prefix_on_sample :
  (1 ≤ 5)%Z
  ∧ top_selling_products [Sample.t1; Sample.t2; Sample.t3] 1
    = take 1 (top_selling_products [Sample.t1; Sample.t2; Sample.t3] 5)
  ∧ top_selling_products [Sample.t1; Sample.t2; Sample.t3] 5
    ≡ₚ product_rows [Sample.t1; Sample.t2; Sample.t3].
Proof.
  assert (Hle : (1 ≤ 5)%Z) by lia.
  split; [exact Hle|].
  destruct (top_selling_products_prefix_and_full
              [Sample.t1; Sample.t2; Sample.t3] 1 5 Hle) as [Hprefix Hfull].
  split; [exact Hprefix|].
  apply Hfull. vm_compute. lia.
Defined.

(** The line of the sample ledger parses to a row with the quantity 2 and
    the price 10.00. *)
Lemma parse_transactions_on_sample :
  parse_transactions ["T1|2024-01-01|P100|Widget|2|10.00|C1|North"] = [Sample.t1]
  ∧ ∃ qty price,
      Sample.t1 !! "Quantity" = Some (VInt qty)
      ∧ Sample.t1 !! "UnitPrice" = Some (VFloat price)
      ∧ ∀ why, check_record Sample.t1 = inl why → why ≠ MissingField.
Proof.
  assert (Hparse : parse_transactions ["T1|2024-01-01|P100|Widget|2|10.00|C1|North"]
                   = [Sample.t1]) by (vm_compute; reflexivity).
  split; [exact Hparse|].
  assert (Hin : Sample.t1
                  ∈ parse_transactions ["T1|2024-01-01|P100|Widget|2|10.00|C1|North"]).
  { rewrite Hparse. apply list_elem_of_here. }
  destruct (parse_transactions_rows_are_typed _ _ Hin)
    as (_ & _ & _ & qty & price & Hq & Hp & Hchk).
  exists qty, price. split; [exact Hq|]. split; [exact Hp|].
  intros why Hwhy. exact (proj1 (Hchk why Hwhy)).
Defined.



(** A record whose Quantity reads "abc" after the first record of the
    sample ledger: the side-file holds the header and the first row. *)
Lemma save_enriched_data_stops_on_sample :
  let bad : record Z := <["Quantity" := VStr "abc"]> Sample.t2 in
  let first := enrich_record Sample.mapping Sample.t1 in
  PyStr.strip (py_str (get bad "Quantity" (VStr ""))) ≠ ""
  ∧ py_int (get bad "Quantity" (VStr "")) = None
  ∧ (save_enriched_data ∅ [first] "side.txt").2 = true
  ∧ save_enriched_data ∅ ([first] ++ bad :: [Sample.t3]) "side.txt"
    = ((save_enriched_data ∅ [first] "side.txt").1, false).
Proof.
  intros bad first.
  assert (Hq : PyStr.strip (py_str (get bad "Quantity" (VStr ""))) ≠ "").
  { vm_compute. intros H. discriminate H. }
  assert (Hi : py_int (get bad "Quantity" (VStr "")) = None) by (vm_compute; reflexivity).
  assert (Hok : (save_enriched_data ∅ [first] "side.txt").2 = true)
    by (vm_compute; reflexivity).
  split; [exact Hq|]. split; [exact Hi|]. split; [exact Hok|].
  apply (save_enriched_data_stops_at_unprintable_row ∅ [first] [Sample.t3] bad "side.txt"
           (or_introl (conj Hq Hi)) Hok).
Defined.


(** The customers of the sample ledger spent 42.50 in all. *)
Lemma customer_totals_on_sample :
  exact_sum Cents.cents
  ∧ fsum (map (λ kv, cs_total_spent kv.2)
            (customer_analysis [Sample.t1; Sample.t2; Sample.t3]))
    = calculate_total_revenue [Sample.t1; Sample.t2; Sample.t3].
Proof.
  split; [split; cbv [fadd fzero Cents.cents]; intros; lia|].
  destruct (customer_and_product_totals_add_up cents_exact_sum
              [Sample.t1; Sample.t2; Sample.t3] 5) as (H & _ & _).
  exact H.
Defined.
